(** * dunst: the notification queues (src/queues.c)

    A shallow embedding of [queues.c]: the three queues [waiting],
    [displayed] and [history], the globals [displayed_limit],
    [next_notification_id] and [pause_displayed], and every function of the
    file that changes or reads them.

    Conventions of the embedding

    - A [notification *] stored in a queue is modelled by the record it
      points to.  Every slot of a queue owns its notification: the code
      never stores one pointer in two slots, and every write through a
      pointer ([n->start = ...], [orig->dup_count++]) is a write to the slot
      that holds it (or to a notification that is about to be handed to
      [notification_free]).
    - A [GList *] cursor into a queue is modelled by the index of its link;
      [NULL] is an index past the end.
    - [int] and [gint64] are [Z] with two's-complement wrap-around written
      out at every arithmetic operation of the source.
    - Calls that leave the file ([notification_run_script],
      [signal_notification_closed], [notification_free],
      [notification_print], [LOG_M]) are recorded, in call order, in the
      [calls] field of the state, each with the value its argument has at
      the time of the call.
    - [time_monotonic_now()] reads an external clock; the [k]-th reading
      since start-up is [clock k]. *)

From Stdlib Require Import ZArith String List Bool Lia Sorted Permutation.
From stdpp Require Import base list.
Import ListNotations.

#[local] Open Scope Z_scope.
#[local] Set Default Proof Using "Type*".

(** ** Machine integers *)

Definition wrap (bits z : Z) : Z :=
  (z + 2 ^ (bits - 1)) mod 2 ^ bits - 2 ^ (bits - 1).

(** [int] arithmetic (32 bits). *)
Definition INT_MAX : Z := 2 ^ 31 - 1.
Definition INT_MIN : Z := - 2 ^ 31.
Definition int_add (a b : Z) : Z := wrap 32 (a + b).

(** [gint64] arithmetic. *)
Definition G_MAXINT64 : Z := 2 ^ 63 - 1.
Definition G_MININT64 : Z := - 2 ^ 63.
Definition gint64_sub (a b : Z) : Z := wrap 64 (a - b).
Definition G_USEC_PER_SEC : Z := 1000000.

(** The [MIN] macro of glib. *)
Definition MIN (a b : Z) : Z := if a <? b then a else b.

Definition in_int (z : Z) : Prop := INT_MIN <= z <= INT_MAX.
Definition in_gint64 (z : Z) : Prop := G_MININT64 <= z <= G_MAXINT64.

(** ** Data model *)

(** Modelled from the spec: the [enum behavior_fullscreen] of
    [notification.h], which is not part of the sources at hand; the spec
    gives the three modes SHOW, DELAY and PUSHBACK. *)
Inductive behavior_fullscreen : Type :=
| FS_SHOW
| FS_DELAY
| FS_PUSHBACK.

Definition behavior_fullscreen_eqb (a b : behavior_fullscreen) : bool :=
  match a, b with
  | FS_SHOW, FS_SHOW | FS_DELAY, FS_DELAY | FS_PUSHBACK, FS_PUSHBACK => true
  | _, _ => false
  end.

(** The fields of [struct notification] that [queues.c] reads or writes,
    and [urgency], which the spec names as the sorting key. *)
Record notification : Type := mk_notification {
  id : Z;                            (* int *)
  msg : string;
  summary : string;
  body : string;
  urgency : Z;
  progress : Z;                      (* int *)
  dup_count : Z;                     (* int *)
  start : Z;                         (* gint64 *)
  timeout : Z;                       (* gint64 *)
  timestamp : Z;                     (* gint64 *)
  transient : bool;
  fullscreen : behavior_fullscreen;
  redisplayed : bool;
  history_ignore : bool;
  script : option string             (* char *, NULL = None *)
}.

Definition set_id (n : notification) (v : Z) : notification :=
  mk_notification v (msg n) (summary n) (body n) (urgency n) (progress n)
    (dup_count n) (start n) (timeout n) (timestamp n) (transient n)
    (fullscreen n) (redisplayed n) (history_ignore n) (script n).

Definition set_progress (n : notification) (v : Z) : notification :=
  mk_notification (id n) (msg n) (summary n) (body n) (urgency n) v
    (dup_count n) (start n) (timeout n) (timestamp n) (transient n)
    (fullscreen n) (redisplayed n) (history_ignore n) (script n).

Definition set_dup_count (n : notification) (v : Z) : notification :=
  mk_notification (id n) (msg n) (summary n) (body n) (urgency n) (progress n)
    v (start n) (timeout n) (timestamp n) (transient n)
    (fullscreen n) (redisplayed n) (history_ignore n) (script n).

Definition set_start (n : notification) (v : Z) : notification :=
  mk_notification (id n) (msg n) (summary n) (body n) (urgency n) (progress n)
    (dup_count n) v (timeout n) (timestamp n) (transient n)
    (fullscreen n) (redisplayed n) (history_ignore n) (script n).

Definition set_timeout (n : notification) (v : Z) : notification :=
  mk_notification (id n) (msg n) (summary n) (body n) (urgency n) (progress n)
    (dup_count n) (start n) v (timestamp n) (transient n)
    (fullscreen n) (redisplayed n) (history_ignore n) (script n).

Definition set_redisplayed (n : notification) (v : bool) : notification :=
  mk_notification (id n) (msg n) (summary n) (body n) (urgency n) (progress n)
    (dup_count n) (start n) (timeout n) (timestamp n) (transient n)
    (fullscreen n) v (history_ignore n) (script n).

(** The members of the global [settings] that [queues.c] reads. *)
Record settings_t : Type := mk_settings {
  always_run_script : bool;
  stack_duplicates : bool;
  print_notifications : bool;
  sticky_history : bool;
  history_length : Z;
  show_age_threshold : Z             (* gint64 *)
}.

(** Calls to functions defined outside [queues.c]. *)
Inductive call : Type :=
| notification_run_script (n : notification)
| notification_print (n : notification)
| notification_free (n : notification)
| signal_notification_closed (n : notification) (reason : Z)
| LOG_M (body summary : string).

(** The file's static and global variables. *)
Record queues : Type := mk_queues {
  waiting : list notification;
  displayed : list notification;
  history : list notification;
  displayed_limit : Z;               (* unsigned int *)
  next_notification_id : Z;          (* int *)
  pause_displayed : bool;
  clock_reads : nat;                 (* readings of the clock so far *)
  calls : list call                  (* external calls, oldest first *)
}.

Definition set_waiting (s : queues) (v : list notification) : queues :=
  mk_queues v (displayed s) (history s) (displayed_limit s)
    (next_notification_id s) (pause_displayed s) (clock_reads s) (calls s).

Definition set_displayed (s : queues) (v : list notification) : queues :=
  mk_queues (waiting s) v (history s) (displayed_limit s)
    (next_notification_id s) (pause_displayed s) (clock_reads s) (calls s).

Definition set_history (s : queues) (v : list notification) : queues :=
  mk_queues (waiting s) (displayed s) v (displayed_limit s)
    (next_notification_id s) (pause_displayed s) (clock_reads s) (calls s).

Definition set_displayed_limit (s : queues) (v : Z) : queues :=
  mk_queues (waiting s) (displayed s) (history s) v
    (next_notification_id s) (pause_displayed s) (clock_reads s) (calls s).

Definition set_next_notification_id (s : queues) (v : Z) : queues :=
  mk_queues (waiting s) (displayed s) (history s) (displayed_limit s)
    v (pause_displayed s) (clock_reads s) (calls s).

Definition set_pause_displayed (s : queues) (v : bool) : queues :=
  mk_queues (waiting s) (displayed s) (history s) (displayed_limit s)
    (next_notification_id s) v (clock_reads s) (calls s).

Definition set_clock_reads (s : queues) (v : nat) : queues :=
  mk_queues (waiting s) (displayed s) (history s) (displayed_limit s)
    (next_notification_id s) (pause_displayed s) v (calls s).

Definition set_calls (s : queues) (v : list call) : queues :=
  mk_queues (waiting s) (displayed s) (history s) (displayed_limit s)
    (next_notification_id s) (pause_displayed s) (clock_reads s) v.

(** ** The monad of the file's functions

    A function of [queues.c] runs on the globals and either returns or
    stops the process at a failed [assert]. *)

Inductive outcome (A : Type) : Type :=
| Returns (a : A) (s : queues)
| AssertFailed.
Arguments Returns {A} a s.
Arguments AssertFailed {A}.

Definition M (A : Type) : Type := queues -> outcome A.

Definition ret {A} (a : A) : M A := fun s => Returns a s.

Definition bind {A B} (m : M A) (k : A -> M B) : M B :=
  fun s => match m s with
           | Returns a s' => k a s'
           | AssertFailed => AssertFailed
           end.

Declare Scope queues_scope.
Delimit Scope queues_scope with queues.
Notation "x <- m ;; k" := (bind m (fun x => k))
  (at level 100, m at next level, right associativity) : queues_scope.
Notation "m ;; k" := (bind m (fun _ => k))
  (at level 100, right associativity) : queues_scope.
#[local] Open Scope queues_scope.

Definition get : M queues := fun s => Returns s s.
Definition modify (f : queues -> queues) : M unit := fun s => Returns tt (f s).
Definition c_assert (b : bool) : M unit :=
  fun s => if b then Returns tt s else AssertFailed.
Definition extern (c : call) : M unit :=
  modify (fun s => set_calls s (calls s ++ [c])).

(** The state a call that returns leaves behind; the state is kept when
    the call stops at an assertion. *)
Definition exec {A} (m : M A) (s : queues) : queues :=
  match m s with Returns _ s' => s' | AssertFailed => s end.

Definition returned {A} (m : M A) (s : queues) : option A :=
  match m s with Returns a _ => Some a | AssertFailed => None end.

(** ** GQueue operations (glib), on the list of the queue's data *)

Section GQueue.
Context {A : Type}.

Definition g_queue_push_head (q : list A) (x : A) : list A := x :: q.
Definition g_queue_push_tail (q : list A) (x : A) : list A := q ++ [x].

Definition g_queue_pop_head (q : list A) : option A * list A :=
  match q with
  | [] => (None, [])
  | x :: q' => (Some x, q')
  end.

Definition g_queue_pop_tail (q : list A) : option A * list A :=
  (last q, removelast q).

(** [g_queue_delete_link] for the link at index [i]. *)
Definition g_queue_delete_link (q : list A) (i : nat) : list A := delete i q.

(** [g_queue_insert_sorted]: walk from the head while
    [func(link->data, data) < 0], insert before the link that stops the
    walk (at the tail when none does). *)
Fixpoint g_queue_insert_sorted (func : A -> A -> Z) (q : list A) (data : A)
  : list A :=
  match q with
  | [] => [data]
  | x :: q' =>
      if func x data <? 0 then x :: g_queue_insert_sorted func q' data
      else data :: q
  end.

(** The first link whose data satisfies [p], with its index: the cursor
    and the data with which a loop
    [for (iter = head; iter; iter = iter->next) if (p (iter->data)) ...]
    enters its body. *)
Fixpoint find_link (p : A -> bool) (q : list A) : option (nat * A) :=
  match q with
  | [] => None
  | x :: q' =>
      if p x then Some (O, x)
      else match find_link p q' with
           | Some (i, y) => Some (S i, y)
           | None => None
           end
  end.
End GQueue.

(** ** Sample data for the examples below *)

Definition plain_settings : settings_t :=
  mk_settings false false false false 0 (-1).

Definition note (i : Z) (urg : Z) (text : string) : notification :=
  mk_notification i text text "" urg 0 0 0 0 0 false FS_SHOW false false None.

(** Higher urgency first, on unbounded integers. *)
Definition by_urgency (a b : notification) : Z :=
  if urgency b <? urgency a then -1
  else if urgency a <? urgency b then 1 else 0.

Definition same_text (a b : notification) : bool :=
  String.eqb (summary a) (summary b) && String.eqb (body a) (body b)
  && (urgency a =? urgency b).

(** ** The functions of queues.c *)

Section Queues.
(** The global [settings]; the comparator [notification_cmp_data] and the
    predicate [notification_is_duplicate] of [notification.c]; the clock
    behind [time_monotonic_now]; and the two members of [enum reason]
    that the file names. *)
Variable settings : settings_t.
Variable notification_cmp_data : notification -> notification -> Z.
Variable notification_is_duplicate : notification -> notification -> bool.
Variable clock : nat -> Z.
Variables REASON_TIME REASON_USER : Z.

Definition time_monotonic_now : M Z :=
  fun s => Returns (clock (clock_reads s))
                   (set_clock_reads s (S (clock_reads s))).

Definition insert_sorted_waiting (n : notification) : M unit :=
  modify (fun s =>
    set_waiting s (g_queue_insert_sorted notification_cmp_data (waiting s) n)).

Definition insert_sorted_displayed (n : notification) : M unit :=
  modify (fun s =>
    set_displayed s
      (g_queue_insert_sorted notification_cmp_data (displayed s) n)).

(** The globals at program start, after [queues_init]. *)
Definition queues_init : queues :=
  mk_queues [] [] [] 0 1 false O [].

Definition queues_displayed_limit (limit : Z) : M unit :=
  modify (fun s => set_displayed_limit s limit).

(** [queues_get_displayed]: the head link of [displayed], that is the
    queue from its head on. *)
Definition queues_get_displayed (s : queues) : list notification :=
  displayed s.

Definition queues_length_waiting (s : queues) : nat := length (waiting s).
Definition queues_length_displayed (s : queues) : nat := length (displayed s).
Definition queues_length_history (s : queues) : nat := length (history s).

(** [orig->dup_count++] or [orig->progress = n->progress]. *)
Definition stack_onto (orig n : notification) : notification :=
  if progress orig =? progress n
  then set_dup_count orig (int_add (dup_count orig) 1)
  else set_progress orig (progress n).

(** [queues_stack_duplicate]: returns whether [n] was stacked, and [*n]
    as the call leaves it. *)
Definition queues_stack_duplicate (n : notification)
  : M (bool * notification) :=
  s <- get ;;
  match find_link (fun orig => notification_is_duplicate orig n)
                  (displayed s) with
  | Some (iter, orig) =>
      let orig := stack_onto orig n in
      now <- time_monotonic_now ;;
      let n := set_start n now in
      let n := set_dup_count n (dup_count orig) in
      modify (fun s => set_displayed s (<[iter := n]> (displayed s))) ;;
      extern (signal_notification_closed orig 1) ;;
      extern (notification_free orig) ;;
      ret (true, n)
  | None =>
      match find_link (fun orig => notification_is_duplicate orig n)
                      (waiting s) with
      | Some (iter, orig) =>
          let orig := stack_onto orig n in
          let n := set_dup_count n (dup_count orig) in
          modify (fun s => set_waiting s (<[iter := n]> (waiting s))) ;;
          extern (signal_notification_closed orig 1) ;;
          extern (notification_free orig) ;;
          ret (true, n)
      | None => ret (false, n)
      end
  end.

(** [queues_notification_replace_id]: returns whether a slot was found,
    and [*new] as the call leaves it. *)
Definition queues_notification_replace_id (new : notification)
  : M (bool * notification) :=
  s <- get ;;
  match find_link (fun old => id old =? id new) (displayed s) with
  | Some (iter, old) =>
      now <- time_monotonic_now ;;
      let new := set_start new now in
      let new := set_dup_count new (dup_count old) in
      modify (fun s => set_displayed s (<[iter := new]> (displayed s))) ;;
      extern (notification_run_script new) ;;
      extern (notification_free old) ;;
      ret (true, new)
  | None =>
      match find_link (fun old => id old =? id new) (waiting s) with
      | Some (iter, old) =>
          let new := set_dup_count new (dup_count old) in
          modify (fun s => set_waiting s (<[iter := new]> (waiting s))) ;;
          extern (notification_free old) ;;
          ret (true, new)
      | None => ret (false, new)
      end
  end.

(** [queues_notification_insert]. *)
Definition queues_notification_insert (n : notification) : M Z :=
  if String.eqb (msg n) "" then
    (if always_run_script settings
     then extern (notification_run_script n) else ret tt) ;;
    extern (LOG_M (body n) (summary n)) ;;
    ret 0
  else if String.eqb "DUNST_COMMAND_PAUSE" (summary n) then
    modify (fun s => set_pause_displayed s true) ;;
    ret 0
  else if String.eqb "DUNST_COMMAND_RESUME" (summary n) then
    modify (fun s => set_pause_displayed s false) ;;
    ret 0
  else if String.eqb "DUNST_COMMAND_TOGGLE" (summary n) then
    modify (fun s => set_pause_displayed s (negb (pause_displayed s))) ;;
    ret 0
  else
    n <- (if id n =? 0 then
            s <- get ;;
            let next := int_add (next_notification_id s) 1 in
            modify (fun s => set_next_notification_id s next) ;;
            let n := set_id n next in
            if negb (stack_duplicates settings) then
              insert_sorted_waiting n ;; ret n
            else
              r <- queues_stack_duplicate n ;;
              if negb (fst r) then insert_sorted_waiting (snd r) ;; ret (snd r)
              else ret (snd r)
          else
            r <- queues_notification_replace_id n ;;
            if negb (fst r) then insert_sorted_waiting (snd r) ;; ret (snd r)
            else ret (snd r)) ;;
    (if print_notifications settings
     then extern (notification_print n) else ret tt) ;;
    ret (id n).

(** [queues_history_push]. *)
Definition queues_history_push (n : notification) : M unit :=
  if negb (history_ignore n) then
    s <- get ;;
    (if (history_length settings >? 0)
        && (Z.of_nat (length (history s)) >=? history_length settings)
     then
       (* the history has a head: its length is at least
          [history_length], which is positive *)
       match g_queue_pop_head (history s) with
       | (Some to_free, h) =>
           modify (fun s => set_history s h) ;;
           extern (notification_free to_free)
       | (None, _) => ret tt
       end
     else ret tt) ;;
    modify (fun s => set_history s (g_queue_push_tail (history s) n))
  else
    extern (notification_free n).

(** [queues_notification_close_id].  [g_queue_remove (q, n)] unlinks the
    first link that holds [n]; that is the link the scan stopped at, the
    first one whose data has the identifier. *)
Definition queues_notification_close_id (id0 : Z) (reason : Z) : M unit :=
  s <- get ;;
  target <- match find_link (fun n => id n =? id0) (displayed s) with
            | Some (iter, n) =>
                modify (fun s =>
                  set_displayed s (g_queue_delete_link (displayed s) iter)) ;;
                ret (Some n)
            | None => ret None
            end ;;
  s <- get ;;
  target <- match find_link (fun n => id n =? id0) (waiting s) with
            | Some (iter, n) =>
                c_assert (match target with None => true | Some _ => false end) ;;
                modify (fun s =>
                  set_waiting s (g_queue_delete_link (waiting s) iter)) ;;
                ret (Some n)
            | None => ret target
            end ;;
  match target with
  | Some target =>
      (if negb (redisplayed target)
       then extern (signal_notification_closed target reason)
       else ret tt) ;;
      queues_history_push target
  | None => ret tt
  end.

(** [queues_notification_close]; [n] is never [NULL] here. *)
Definition queues_notification_close (n : notification) (reason : Z)
  : M unit :=
  queues_notification_close_id (id n) reason.

(** [queues_history_pop]. *)
Definition queues_history_pop : M unit :=
  s <- get ;;
  match g_queue_pop_tail (history s) with
  | (None, _) => ret tt
  | (Some n, h) =>
      let n := set_redisplayed n true in
      let n := set_start n 0 in
      let n := set_timeout n (if sticky_history settings then 0 else timeout n) in
      modify (fun s => set_history s h) ;;
      modify (fun s => set_waiting s (g_queue_push_head (waiting s) n))
  end.

(** [queues_history_push_all]: each loop closes the head of its queue
    until the queue is empty. *)
Fixpoint close_displayed_heads (fuel : nat) : M unit :=
  match fuel with
  | O => ret tt
  | S fuel =>
      s <- get ;;
      match displayed s with
      | [] => ret tt
      | n :: _ =>
          queues_notification_close n REASON_USER ;;
          close_displayed_heads fuel
      end
  end.

Fixpoint close_waiting_heads (fuel : nat) : M unit :=
  match fuel with
  | O => ret tt
  | S fuel =>
      s <- get ;;
      match waiting s with
      | [] => ret tt
      | n :: _ =>
          queues_notification_close n REASON_USER ;;
          close_waiting_heads fuel
      end
  end.

Definition queues_history_push_all : M unit :=
  s <- get ;;
  close_displayed_heads (length (displayed s)) ;;
  s <- get ;;
  close_waiting_heads (length (waiting s)).

(** [queues_check_timeouts]: one pass of the loop body, entered with the
    cursor [iter] on the link that holds [n].  The result is the cursor
    for the next pass, the link that followed [iter] when the pass began
    ([iter = iter->next] is the body's first statement).  A close unlinks
    one link of [displayed], the first with the identifier of [n], which
    is [iter] or a link before it: the link that followed [iter] is then
    found one index lower. *)
Definition check_timeouts_visit (is_idle : bool) (iter : nat)
    (n : notification) : M nat :=
  if is_idle && negb (transient n) then
    now <- time_monotonic_now ;;
    modify (fun s =>
      set_displayed s (<[iter := set_start n now]> (displayed s))) ;;
    ret (S iter)
  else if (start n =? 0) || (timeout n =? 0) then
    ret (S iter)
  else
    now <- time_monotonic_now ;;
    if gint64_sub now (start n) >? timeout n then
      queues_notification_close n REASON_TIME ;;
      ret iter
    else ret (S iter).

(** [while (iter) { ... }]; [fuel] bounds the number of passes. *)
Fixpoint check_timeouts_loop (is_idle : bool) (fuel : nat) (iter : nat)
  : M unit :=
  match fuel with
  | O => ret tt
  | S fuel =>
      s <- get ;;
      match displayed s !! iter with
      | None => ret tt
      | Some n =>
          next <- check_timeouts_visit is_idle iter n ;;
          check_timeouts_loop is_idle fuel next
      end
  end.

(** [bool is_idle = fullscreen ? false : idle]. *)
Definition effective_idle (idle is_fullscreen : bool) : bool :=
  if is_fullscreen then false else idle.

(** [queues_check_timeouts]; every pass of the loop leaves one link of
    the queue behind the cursor or unlinks one, so the number of links at
    entry bounds the number of passes. *)
Definition queues_check_timeouts (idle is_fullscreen : bool) : M unit :=
  s <- get ;;
  if (length (displayed s) =? 0)%nat then ret tt
  else
    let is_idle := effective_idle idle is_fullscreen in
    check_timeouts_loop is_idle (length (displayed s)) O.

(** [queues_update], the loop of the paused branch:
    [while (displayed->length > 0)] pop the head of [displayed] and
    insert it into [waiting]. *)
Fixpoint update_paused_loop (fuel : nat) : M unit :=
  match fuel with
  | O => ret tt
  | S fuel =>
      s <- get ;;
      match g_queue_pop_head (displayed s) with
      | (None, _) => ret tt
      | (Some n, d) =>
          modify (fun s => set_displayed s d) ;;
          insert_sorted_waiting n ;;
          update_paused_loop fuel
      end
  end.

(** [queues_update], the loop of the fullscreen branch. *)
Fixpoint update_pushback_loop (fuel : nat) (iter : nat) : M unit :=
  match fuel with
  | O => ret tt
  | S fuel =>
      s <- get ;;
      match displayed s !! iter with
      | None => ret tt
      | Some n =>
          if behavior_fullscreen_eqb (fullscreen n) FS_PUSHBACK then
            modify (fun s =>
              set_displayed s (g_queue_delete_link (displayed s) iter)) ;;
            insert_sorted_waiting n ;;
            update_pushback_loop fuel iter
          else update_pushback_loop fuel (S iter)
      end
  end.

Definition held_back (is_fullscreen : bool) (n : notification) : bool :=
  is_fullscreen
  && (behavior_fullscreen_eqb (fullscreen n) FS_DELAY
      || behavior_fullscreen_eqb (fullscreen n) FS_PUSHBACK).

Definition displayed_full (s : queues) : bool :=
  (displayed_limit s >? 0)
  && (Z.of_nat (length (displayed s)) >=? displayed_limit s).

(** [queues_update], the loop that moves notifications from [waiting] to
    [displayed].  A queue holds no [NULL] data, so [if (!n) return;] is
    never taken. *)
Fixpoint update_promote_loop (is_fullscreen : bool) (fuel : nat) (iter : nat)
  : M unit :=
  match fuel with
  | O => ret tt
  | S fuel =>
      s <- get ;;
      match waiting s !! iter with
      | None => ret tt
      | Some n =>
          if displayed_full s then ret tt
          else if held_back is_fullscreen n then
            update_promote_loop is_fullscreen fuel (S iter)
          else
            now <- time_monotonic_now ;;
            let n := set_start n now in
            (if negb (redisplayed n)
                && (match script n with Some _ => true | None => false end)
             then extern (notification_run_script n) else ret tt) ;;
            modify (fun s =>
              set_waiting s (g_queue_delete_link (waiting s) iter)) ;;
            insert_sorted_displayed n ;;
            update_promote_loop is_fullscreen fuel iter
      end
  end.

(** [queues_update].  Each loop is given as many passes as its queue has
    links at entry: every pass unlinks one or steps over one. *)
Definition queues_update (is_fullscreen : bool) : M unit :=
  s <- get ;;
  if pause_displayed s then
    update_paused_loop (length (displayed s))
  else
    (if is_fullscreen
     then update_pushback_loop (length (displayed s)) O
     else ret tt) ;;
    s <- get ;;
    update_promote_loop is_fullscreen (length (waiting s)) O.

(** [queues_get_next_datachange], one pass of the loop: [None] is the
    [return 0] inside the loop, [Some sleep] the value of [sleep] after
    the pass. *)
Definition next_datachange_visit (time : Z) (n : notification) (sleep : Z)
  : option Z :=
  let ttl := gint64_sub (timeout n) (gint64_sub time (start n)) in
  match (if timeout n >? 0 then
           if ttl >? 0 then Some (MIN sleep ttl) else None
         else Some sleep) with
  | None => None
  | Some sleep =>
      Some (if show_age_threshold settings >=? 0 then
              let age := gint64_sub time (timestamp n) in
              if age >? show_age_threshold settings then
                MIN sleep
                  (gint64_sub G_USEC_PER_SEC (Z.rem age G_USEC_PER_SEC))
              else if (timeout n =? 0)
                      || (ttl >? show_age_threshold settings) then
                MIN sleep (show_age_threshold settings)
              else sleep
            else sleep)
  end.

Fixpoint next_datachange_loop (time : Z) (q : list notification) (sleep : Z)
  : Z :=
  match q with
  | [] => if negb (sleep =? G_MAXINT64) then sleep else -1
  | n :: q' =>
      match next_datachange_visit time n sleep with
      | None => 0
      | Some sleep => next_datachange_loop time q' sleep
      end
  end.

Definition queues_get_next_datachange (time : Z) (s : queues) : Z :=
  next_datachange_loop time (displayed s) G_MAXINT64.

Definition queues_pause_on : M unit :=
  modify (fun s => set_pause_displayed s true).
Definition queues_pause_off : M unit :=
  modify (fun s => set_pause_displayed s false).
Definition queues_pause_status (s : queues) : bool := pause_displayed s.

(** [teardown_queues]: every notification of the three queues is freed. *)
Definition teardown_queues : M unit :=
  modify (fun s =>
    mk_queues [] [] [] (displayed_limit s) (next_notification_id s)
      (pause_displayed s) (clock_reads s)
      (calls s ++ map notification_free (history s)
               ++ map notification_free (displayed s)
               ++ map notification_free (waiting s))).

(** The passes of the timeout scan over [todo], the links from the cursor
    [iter] on: each notification is visited as the scan finds it. *)
Fixpoint check_timeouts_passes (is_idle : bool) (iter : nat)
    (todo : list notification) : M unit :=
  match todo with
  | [] => ret tt
  | n :: todo =>
      next <- check_timeouts_visit is_idle iter n ;;
      check_timeouts_passes is_idle next todo
  end.


(** A sequence of [queues_history_push] calls. *)
Fixpoint history_push_each (ns : list notification) : M unit :=
  match ns with
  | [] => ret tt
  | n :: ns => queues_history_push n ;; history_push_each ns
  end.

(** C1 as the claim words it: the timeout is reset unless sticky history
    is enabled, and kept when it is. *)
Definition history_pop_as_claimed (s : queues) : Prop :=
  forall h n, history s = h ++ [n] ->
    exists n',
      waiting (exec queues_history_pop s) = n' :: waiting s
      /\ redisplayed n' = true
      /\ start n' = 0
      /\ timeout n' = (if sticky_history settings then timeout n else 0).

(** A closed notification with a timeout of five seconds, alone in
    [history]. *)
Definition closed_sample : notification :=
  set_timeout (note 2 1 "a") 5000000.

Definition history_sample : queues :=
  set_history queues_init [closed_sample].

(** C6 as the claim words it, for a queue [displayed] that holds one
    notification with timeout [T] and visibility-start 0. *)
Definition wake_as_claimed (T t : Z) : Prop :=
  0 < T ->
  show_age_threshold settings < 0 ->
  let s := set_displayed queues_init [set_timeout (note 2 1 "a") T] in
  (t < T -> queues_get_next_datachange t s = T - t)
  /\ (T <= t -> queues_get_next_datachange t s = 0).

(** The summary is one of the three command strings. *)
Definition is_command (n : notification) : bool :=
  String.eqb "DUNST_COMMAND_PAUSE" (summary n)
  || String.eqb "DUNST_COMMAND_RESUME" (summary n)
  || String.eqb "DUNST_COMMAND_TOGGLE" (summary n).

(** The two early exits of [queues_notification_insert]. *)
Definition discarded (n : notification) : bool :=
  String.eqb (msg n) "" || is_command n.

(** The state after [if (settings.print_notifications)
    notification_print(n)]. *)
Definition printed (n : notification) (s : queues) : queues :=
  if print_notifications settings
  then set_calls s (calls s ++ [notification_print n]) else s.

(** No notification of the queue has the identifier. *)
Definition id_free (i : Z) (q : list notification) : Prop :=
  Forall (fun o => id o <> i) q.

(** C3 as the claim words it on the point where the code differs: every
    replacement runs the display script for the new content. *)
Definition replace_as_claimed (new : notification) (s : queues) : Prop :=
  forall new' s',
    queues_notification_replace_id new s = Returns (true, new') s' ->
    In (notification_run_script new') (calls s').

(** A notification waiting under identifier 5. *)
Definition waiting_sample : queues :=
  set_waiting queues_init [note 5 1 "old"].

(** Two notifications that differ at most in the fields an insertion
    writes: the visibility-start and the duplicate counter. *)
Definition same_but_stamp (a b : notification) : Prop :=
  set_dup_count (set_start a 0) 0 = set_dup_count (set_start b 0) 0.

(** The identifier counter has not run over the range of [int]. *)
Definition counter_in_range (s : queues) : Prop :=
  1 <= next_notification_id s < INT_MAX.

(** No notification of the queue is a duplicate of [n]. *)
Definition no_duplicate (n : notification) (q : list notification) : Prop :=
  Forall (fun o => notification_is_duplicate o n = false) q.

(** C4 as the claim words it: two duplicates with equal progress,
    inserted one after the other into the empty queues, leave one queue
    entry whose duplicate counter is 2. *)
Definition stacking_as_claimed (a b : notification) : Prop :=
  let s1 := exec (queues_notification_insert a) queues_init in
  let s2 := exec (queues_notification_insert b) s1 in
  exists e, waiting s2 ++ displayed s2 = [e] /\ dup_count e = 2.

(** C10 as the claim words it: when the insertion of [n] frees [orig],
    whose slot it takes, the identifier of [orig] is that of no queue
    entry any more and closing it changes nothing. *)
Definition absorbed_id_as_claimed (s : queues) (n orig : notification)
  : Prop :=
  forall r s',
    queues_notification_insert n s = Returns r s' ->
    In (notification_free (stack_onto orig (set_id n r))) (calls s') ->
    id_free (id orig) (waiting s' ++ displayed s')
    /\ forall reason,
         queues_notification_close_id (id orig) reason s' = Returns tt s'.

(** A notification that a client sent with identifier 2 waits while the
    counter still stands at 1. *)
Definition supplied_id_sample : queues :=
  set_waiting queues_init [note 2 1 "a"].

Definition stack_settings : settings_t :=
  mk_settings false true false false 0 (-1).

(** The queues after a first notification was inserted and given
    identifier 2. *)
Definition first_inserted_sample : queues :=
  set_next_notification_id (set_waiting queues_init [note 2 1 "a"]) 2.

(** The state in which [queues_notification_close_id] calls
    [queues_history_push] for a notification [n] that it unlinked from
    [displayed], leaving [rest]: observers are told unless [n] came back
    from the history. *)
Definition unlinked_displayed (n : notification) (reason : Z)
    (rest : list notification) (s : queues) : queues :=
  let s1 := set_displayed s rest in
  if redisplayed n then s1
  else set_calls s1 (calls s1 ++ [signal_notification_closed n reason]).

Definition unlinked_waiting (n : notification) (reason : Z)
    (rest : list notification) (s : queues) : queues :=
  let s1 := set_waiting s rest in
  if redisplayed n then s1
  else set_calls s1 (calls s1 ++ [signal_notification_closed n reason]).

(** A queue is sorted when the comparator puts no link after its
    successor: [notification_cmp_data (a, b) <= 0] for adjacent [a],
    [b]. *)
Fixpoint queue_sorted (q : list notification) : bool :=
  match q with
  | a :: (b :: _) as q' =>
      (notification_cmp_data a b <=? 0) && queue_sorted q'
  | _ => true
  end.

Definition queues_sorted (s : queues) : Prop :=
  queue_sorted (waiting s) = true /\ queue_sorted (displayed s) = true.

(** The laws of a comparator that orders notifications consistently. *)
Definition cmp_total : Prop :=
  forall a b, 0 <= notification_cmp_data a b ->
              notification_cmp_data b a <= 0.

Definition cmp_transitive : Prop :=
  forall a b c, notification_cmp_data a b <= 0 ->
                notification_cmp_data b c <= 0 ->
                notification_cmp_data a c <= 0.

(** C2 as the claim words it, for the operation [m] run on [s]. *)
Definition sorted_after_as_claimed {A} (m : M A) (s : queues) : Prop :=
  queues_sorted (exec m s).

(** The insertion of [n] swaps the contents of a slot: [n] carries an
    identifier that a queue entry has, or it is fresh, stacking is
    enabled and a queue entry is its duplicate. *)
Definition takes_slot (n : notification) (s : queues) : bool :=
  if id n =? 0 then
    stack_duplicates settings
    && existsb (fun o =>
         notification_is_duplicate o
           (set_id n (int_add (next_notification_id s) 1)))
         (displayed s ++ waiting s)
  else existsb (fun o => id o =? id n) (displayed s ++ waiting s).

(** [displayed] is full, a more urgent notification waits, and a less
    urgent one lies in the history. *)
Definition recall_sample : queues :=
  mk_queues [note 3 2 "hi"] [note 2 1 "d"] [note 4 1 "lo"] 1 4 false O [].

(** Two notifications wait in order of urgency. *)
Definition two_waiting_sample : queues :=
  mk_queues [note 5 2 "x"; note 6 1 "y"] [] [] 0 6 false O [].

(** The state after one pass of the pushback loop that unlinks the
    notification [n] at the cursor. *)
Definition pushback_step (s : queues) (iter : nat) (n : notification)
  : queues :=
  set_waiting (set_displayed s (delete iter (displayed s)))
    (g_queue_insert_sorted notification_cmp_data (waiting s) n).

(** The state after one pass of the promotion loop that moves the
    notification [n] at the cursor to [displayed]. *)
Definition promote_step (s : queues) (iter : nat) (n : notification)
  : queues :=
  let n' := set_start n (clock (clock_reads s)) in
  let s1 := set_clock_reads s (S (clock_reads s)) in
  let s2 := if negb (redisplayed n')
               && (match script n' with Some _ => true | None => false end)
            then set_calls s1 (calls s1 ++ [notification_run_script n'])
            else s1 in
  set_displayed (set_waiting s2 (delete iter (waiting s2)))
    (g_queue_insert_sorted notification_cmp_data (displayed s2) n').

(** How many notifications [displayed] can take before it is full. *)
Definition promote_count (s : queues) : nat :=
  if displayed_limit s <=? 0 then length (waiting s)
  else Nat.min (length (waiting s))
         (Z.to_nat (displayed_limit s - Z.of_nat (length (displayed s)))).

(** [p] is [w] with a new visibility-start. *)
Definition stamped (w p : notification) : Prop :=
  exists t, p = set_start w t.

(** C9 as the claim words it, for queues that are paused and whose
    [displayed] has no limit: an update, the end of the pause and a
    second update bring every notification that was displayed back to
    [displayed]. *)
Definition pause_resume_as_claimed (fs1 fs2 : bool) (s : queues) : Prop :=
  let s3 := exec (queues_update fs1 ;; queues_pause_off ;; queues_update fs2)
              s in
  forall n, In n (displayed s) -> exists p, stamped n p /\ In p (displayed s3).

(** A paused engine that displays one notification of mode [FS_DELAY]. *)
Definition paused_sample : queues :=
  mk_queues []
    [mk_notification 2 "a" "a" "" 1 0 0 7 0 0 false FS_DELAY false false None]
    [] 0 2 true 1%nat [].

(** A notification with a timeout of five seconds, displayed since the
    clock read 1000. *)
Definition shown_sample : notification :=
  set_start (set_timeout (note 2 1 "a") 5000000) 1000.

Definition displayed_sample : queues :=
  set_clock_reads (set_displayed queues_init [shown_sample]) 1.

(** A clock that first reads 1000 and is later read just after the five
    seconds have passed. *)
Definition sample_clock (k : nat) : Z :=
  match k with O => 1000 | _ => 5001001 end.

(** A notification displayed under identifier 5, stacked three times. *)
Definition replaced_sample : queues :=
  set_displayed queues_init [set_dup_count (note 5 1 "old") 3].

(** A paused engine that displays two notifications, with no limit. *)
Definition paused_pair_sample : queues :=
  mk_queues [] [note 2 2 "a"; note 3 1 "b"] [] 0 3 true 2%nat [].

(** What [queues_history_pop] makes of the notification it recalls. *)
Definition recall (n : notification) : notification :=
  set_timeout (set_start (set_redisplayed n true) 0)
    (if sticky_history settings then 0 else timeout n).

(** What [queues_notification_close_id] does with each notification it
    has unlinked, for the notifications [ns] in turn: observers are told
    unless the notification had come back from the history, and it is
    pushed to the history. *)
Fixpoint archive_each (reason : Z) (ns : list notification) : M unit :=
  match ns with
  | [] => ret tt
  | n :: ns =>
      (if negb (redisplayed n)
       then extern (signal_notification_closed n reason) else ret tt) ;;
      queues_history_push n ;;
      archive_each reason ns
  end.

(** The time a notification has left at [time], as
    [queues_get_next_datachange] computes it:
    [n->timeout - (time - n->start)]. *)
Definition ttl (time : Z) (n : notification) : Z :=
  gint64_sub (timeout n) (gint64_sub time (start n)).

(** The notification has a timeout, and it has run out at [time]. *)
Definition timed_out (time : Z) (n : notification) : Prop :=
  0 < timeout n /\ ttl time n <= 0.


(** The notifications of [d] with the visibility-start of each set to
    the next reading of the clock, from the [k]-th reading on. *)
Fixpoint restamp_from (k : nat) (d : list notification)
  : list notification :=
  match d with
  | [] => []
  | n :: d => set_start n (clock k) :: restamp_from (S k) d
  end.

(** The verdicts of a timeout scan with the idle state false over the
    notifications [d], the clock having been read [k] times: the
    notifications that stay, those that are closed, both in queue order,
    and the number of readings afterwards.  A notification without
    visibility-start or timeout stays and costs no reading; any other
    costs one and is closed when the reading minus its visibility-start
    exceeds its timeout. *)
Fixpoint expire_scan (k : nat) (d : list notification)
  : list notification * list notification * nat :=
  match d with
  | [] => ([], [], k)
  | n :: d =>
      if (start n =? 0) || (timeout n =? 0) then
        let '(kept, closed, k') := expire_scan k d in
        (n :: kept, closed, k')
      else
        let '(kept, closed, k') := expire_scan (S k) d in
        if gint64_sub (clock k) (start n) >? timeout n
        then (kept, n :: closed, k')
        else (n :: kept, closed, k')
  end.

(** The state with [displayed] and the count of clock readings
    replaced. *)
Definition reframe (s : queues) (d : list notification) (k : nat) : queues :=
  set_clock_reads (set_displayed s d) k.

(** The calls that [queues_update] may add: scripts of notifications that
    carry one and have not come back from the history. *)
Definition first_shown (n : notification) : Prop :=
  redisplayed n = false /\ script n <> None.

(** * Properties *)

(** ** Running the monad *)

Lemma bind_returns {A B} (m : M A) (k : A -> M B) s a s' :
  m s = Returns a s' -> bind m k s = k a s'.
Proof. unfold bind. intros ->. reflexivity. Qed.

Lemma exec_returns {A} (m : M A) s a s' :
  m s = Returns a s' -> exec m s = s'.
Proof. unfold exec. intros ->. reflexivity. Qed.

(** ** History *)

Lemma pop_tail_snoc (h : list notification) (n : notification) :
  g_queue_pop_tail (h ++ [n]) = (Some n, h).
Proof.
  unfold g_queue_pop_tail. rewrite last_snoc, removelast_last. reflexivity.
Qed.

(** C1, amended.  [queues_history_pop] on a history whose tail is [n]
    unlinks [n], marks it redisplayed, resets its visibility-start to 0,
    resets its timeout to 0 when sticky history is enabled and keeps the
    timeout otherwise, and pushes it onto the head of [waiting]. *)
Theorem history_pop_recalls (s : queues) (h : list notification)
    (n : notification) :
  history s = h ++ [n] ->
  exists n',
    queues_history_pop s
      = Returns tt (set_waiting (set_history s h) (n' :: waiting s))
    /\ n' = set_timeout (set_start (set_redisplayed n true) 0)
              (if sticky_history settings then 0 else timeout n)
    /\ redisplayed n' = true
    /\ start n' = 0
    /\ timeout n' = (if sticky_history settings then 0 else timeout n).
Proof.
  intros Hh. eexists. split; [|split; [reflexivity|]].
  - unfold queues_history_pop, bind, get, modify. rewrite Hh, pop_tail_snoc.
    destruct s; simpl in *. reflexivity.
  - simpl. auto.
Qed.

Lemma history_push_ignored (s : queues) (n : notification) :
  history_ignore n = true ->
  queues_history_push n s
    = Returns tt (set_calls s (calls s ++ [notification_free n])).
Proof.
  intros Hi. unfold queues_history_push. rewrite Hi. reflexivity.
Qed.

Lemma history_push_evicts (s : queues) (n o : notification)
    (h : list notification) :
  history_ignore n = false ->
  0 < history_length settings ->
  history s = o :: h ->
  history_length settings <= Z.of_nat (length (history s)) ->
  queues_history_push n s
    = Returns tt (set_history
                    (set_calls s (calls s ++ [notification_free o]))
                    (h ++ [n])).
Proof.
  intros Hi Hpos Hh Hfull. unfold queues_history_push, bind, get.
  rewrite Hi. simpl.
  replace (history_length settings >? 0) with true by lia.
  replace (Z.of_nat (length (history s)) >=? history_length settings)
    with true by lia.
  rewrite Hh. destruct s; simpl in *. reflexivity.
Qed.

Lemma history_push_appends (s : queues) (n : notification) :
  history_ignore n = false ->
  (history_length settings <= 0
   \/ Z.of_nat (length (history s)) < history_length settings) ->
  queues_history_push n s
    = Returns tt (set_history s (history s ++ [n])).
Proof.
  intros Hi Hroom. unfold queues_history_push, bind, get.
  rewrite Hi. simpl.
  replace ((history_length settings >? 0)
           && (Z.of_nat (length (history s)) >=? history_length settings))
    with false.
  - destruct s; reflexivity.
  - symmetry. apply andb_false_iff. lia.
Qed.

(** A push returns, and keeps a history that is within its bound within
    its bound. *)
Lemma history_push_keeps_bound (s : queues) (n : notification) :
  0 < history_length settings ->
  Z.of_nat (length (history s)) <= history_length settings ->
  exists s',
    queues_history_push n s = Returns tt s'
    /\ Z.of_nat (length (history s')) <= history_length settings.
Proof.
  intros Hpos Hlen.
  destruct (history_ignore n) eqn:Hi.
  - eexists. split; [apply history_push_ignored; assumption|]. simpl. lia.
  - destruct (Z_lt_le_dec (Z.of_nat (length (history s)))
                          (history_length settings)) as [Hlt | Hge].
    + eexists. split; [apply history_push_appends; auto|].
      simpl. rewrite length_app. simpl. lia.
    + destruct (history s) as [|o h] eqn:Hh; [simpl in *; lia|].
      eexists. split.
      * apply (history_push_evicts s n o h); auto. rewrite Hh. exact Hge.
      * simpl in *. rewrite length_app. simpl. lia.
Qed.

Lemma history_push_each_keeps_bound (ns : list notification) :
  0 < history_length settings ->
  forall s,
    Z.of_nat (length (history s)) <= history_length settings ->
    exists s',
      history_push_each ns s = Returns tt s'
      /\ Z.of_nat (length (history s')) <= history_length settings.
Proof.
  intros Hpos. induction ns as [|n ns IH]; intros s Hlen.
  - exists s. split; [reflexivity | assumption].
  - destruct (history_push_keeps_bound s n Hpos Hlen) as (s1 & Hrun & Hlen1).
    destruct (IH s1 Hlen1) as (s2 & Hrun2 & Hlen2).
    exists s2. split; [|assumption].
    simpl. rewrite (bind_returns _ _ _ _ _ Hrun). exact Hrun2.
Qed.

(** C5.  With [history_length > 0]: any sequence of [queues_history_push]
    calls, started on a history within the bound (the empty history of
    [queues_init] is), returns with the history within the bound; a push
    onto a full history frees the head and appends at the tail of what is
    left; a push with room left appends and frees nothing; a notification
    with [history_ignore] set is freed and the history is left as it
    was. *)
Theorem history_push_bounded (s : queues) (ns : list notification)
    (n : notification) :
  0 < history_length settings ->
  (exists s',
     history_push_each ns queues_init = Returns tt s'
     /\ Z.of_nat (length (history s')) <= history_length settings)
  /\ (Z.of_nat (length (history s)) <= history_length settings ->
      exists s',
        history_push_each ns s = Returns tt s'
        /\ Z.of_nat (length (history s')) <= history_length settings)
  /\ (history_ignore n = false ->
      forall o h,
        history s = o :: h ->
        history_length settings <= Z.of_nat (length (history s)) ->
        queues_history_push n s
          = Returns tt (set_history
                          (set_calls s (calls s ++ [notification_free o]))
                          (h ++ [n])))
  /\ (history_ignore n = false ->
      Z.of_nat (length (history s)) < history_length settings ->
      queues_history_push n s
        = Returns tt (set_history s (history s ++ [n])))
  /\ (history_ignore n = true ->
      queues_history_push n s
        = Returns tt (set_calls s (calls s ++ [notification_free n]))).
Proof.
  intros Hpos. repeat split.
  - apply history_push_each_keeps_bound; [assumption | simpl; lia].
  - intros Hlen. apply history_push_each_keeps_bound; assumption.
  - intros Hi o h Hh Hfull. apply history_push_evicts; assumption.
  - intros Hi Hroom. apply history_push_appends; auto.
  - apply history_push_ignored.
Qed.

(** ** Machine integers *)

Lemma wrap64_in_range (z : Z) : in_gint64 z -> wrap 64 z = z.
Proof.
  unfold in_gint64, G_MININT64, G_MAXINT64, wrap. intros H.
  change (2 ^ (64 - 1)) with 9223372036854775808 in *.
  change (2 ^ 63) with 9223372036854775808 in *.
  change (2 ^ 64) with 18446744073709551616.
  rewrite Z.mod_small; lia.
Qed.

Lemma wrap32_in_range (z : Z) : in_int z -> wrap 32 z = z.
Proof.
  unfold in_int, INT_MIN, INT_MAX, wrap. intros H.
  change (2 ^ (32 - 1)) with 2147483648 in *.
  change (2 ^ 31) with 2147483648 in *.
  change (2 ^ 32) with 4294967296.
  rewrite Z.mod_small; lia.
Qed.

(** ** The next wake-up *)

(** C6, amended.  [displayed] holds one notification, with a positive
    timeout [T] and visibility-start 0, and the age threshold is
    negative.  At a time [t] for which [T - t] is a [gint64]:
    [queues_get_next_datachange] returns [T - t] when [t < T], unless
    [T - t] is [G_MAXINT64], the value that stands for "no wake-up", for
    which it returns -1; and it returns 0 when [t >= T]. *)
Theorem next_datachange_single (s : queues) (n : notification) (t : Z) :
  show_age_threshold settings < 0 ->
  displayed s = [n] ->
  start n = 0 ->
  0 < timeout n ->
  in_gint64 t ->
  in_gint64 (timeout n - t) ->
  (t < timeout n -> timeout n - t <> G_MAXINT64 ->
   queues_get_next_datachange t s = timeout n - t)
  /\ (t < timeout n -> timeout n - t = G_MAXINT64 ->
      queues_get_next_datachange t s = -1)
  /\ (timeout n <= t -> queues_get_next_datachange t s = 0).
Proof.
  intros Hage Hd Hstart HT Ht HTt.
  unfold queues_get_next_datachange. rewrite Hd. simpl.
  unfold next_datachange_visit. rewrite Hstart.
  unfold gint64_sub. rewrite Z.sub_0_r, (wrap64_in_range t Ht).
  rewrite (wrap64_in_range _ HTt).
  replace (timeout n >? 0) with true by lia.
  replace (show_age_threshold settings >=? 0) with false by lia.
  unfold in_gint64 in HTt.
  repeat split.
  - intros Hlt Hne. replace (timeout n - t >? 0) with true by lia.
    unfold MIN. replace (G_MAXINT64 <? timeout n - t) with false by lia.
    destruct (Z.eqb_spec (timeout n - t) G_MAXINT64); [contradiction|].
    reflexivity.
  - intros Hlt Heq. replace (timeout n - t >? 0) with true by lia.
    unfold MIN. rewrite Heq, Z.ltb_irrefl, Z.eqb_refl. reflexivity.
  - intros Hge. replace (timeout n - t >? 0) with false by lia.
    reflexivity.
Qed.

(** ** Scanning a queue *)

Lemma find_link_first {A} (p : A -> bool) (pre : list A) (x : A)
    (post : list A) :
  Forall (fun y => p y = false) pre -> p x = true ->
  find_link p (pre ++ x :: post) = Some (length pre, x).
Proof.
  intros Hpre Hx. induction Hpre as [|y pre Hy _ IH]; simpl.
  - rewrite Hx. reflexivity.
  - rewrite Hy, IH. reflexivity.
Qed.

Lemma find_link_none {A} (p : A -> bool) (q : list A) :
  Forall (fun y => p y = false) q -> find_link p q = None.
Proof.
  intros Hq. induction Hq as [|y q Hy _ IH]; simpl; [reflexivity|].
  rewrite Hy, IH. reflexivity.
Qed.

Lemma find_link_some {A} (p : A -> bool) (q : list A) (i : nat) (x : A) :
  find_link p q = Some (i, x) ->
  exists pre post,
    q = pre ++ x :: post /\ length pre = i
    /\ Forall (fun y => p y = false) pre /\ p x = true.
Proof.
  revert i. induction q as [|y q IH]; simpl; intros i H; [discriminate|].
  destruct (p y) eqn:Hy.
  - injection H as <- <-. exists [], q. auto.
  - destruct (find_link p q) as [[j z]|] eqn:Hf; [|discriminate].
    injection H as <- <-.
    destruct (IH j eq_refl) as (pre & post & -> & <- & Hpre & Hx).
    exists (y :: pre), post. auto.
Qed.

Lemma find_link_none_inv {A} (p : A -> bool) (q : list A) :
  find_link p q = None -> Forall (fun y => p y = false) q.
Proof.
  induction q as [|y q IH]; simpl; intros H; [constructor|].
  destruct (p y) eqn:Hy; [discriminate|].
  destruct (find_link p q) as [[j z]|]; [discriminate|]. auto.
Qed.

Lemma insert_middle {A} (pre : list A) (x y : A) (post : list A) :
  <[length pre := y]> (pre ++ x :: post) = pre ++ y :: post.
Proof. induction pre as [|z pre IH]; simpl; [|rewrite IH]; reflexivity. Qed.

Lemma delete_middle {A} (pre : list A) (x : A) (post : list A) :
  delete (length pre) (pre ++ x :: post) = pre ++ post.
Proof. induction pre as [|z pre IH]; simpl; [|rewrite IH]; reflexivity. Qed.

Lemma id_free_eqb (i : Z) (q : list notification) :
  id_free i q -> Forall (fun o => (id o =? i) = false) q.
Proof.
  unfold id_free. intros H.
  induction H as [|o q Ho _ IH]; constructor; [apply Z.eqb_neq|]; assumption.
Qed.

Lemma discarded_false (n : notification) :
  discarded n = false ->
  String.eqb (msg n) "" = false
  /\ String.eqb "DUNST_COMMAND_PAUSE" (summary n) = false
  /\ String.eqb "DUNST_COMMAND_RESUME" (summary n) = false
  /\ String.eqb "DUNST_COMMAND_TOGGLE" (summary n) = false.
Proof.
  unfold discarded, is_command. intros H.
  apply orb_false_iff in H. destruct H as [H1 H].
  apply orb_false_iff in H. destruct H as [H H4].
  apply orb_false_iff in H. destruct H as [H2 H3]. auto.
Qed.

(** ** Replacement by identifier *)

Lemma replace_id_in_displayed (s : queues) (new old : notification)
    (pre post : list notification) :
  displayed s = pre ++ old :: post ->
  id_free (id new) pre ->
  id old = id new ->
  let new' := set_dup_count (set_start new (clock (clock_reads s)))
                (dup_count old) in
  queues_notification_replace_id new s
  = Returns (true, new')
      (set_calls
         (set_clock_reads (set_displayed s (pre ++ new' :: post))
            (S (clock_reads s)))
         (calls s ++ [notification_run_script new'; notification_free old])).
Proof.
  intros Hd Hpre Hid new'.
  unfold queues_notification_replace_id, bind, get.
  rewrite Hd, (find_link_first _ pre old post);
    [| apply id_free_eqb; assumption | apply Z.eqb_eq; assumption].
  unfold time_monotonic_now, modify, extern, modify, ret. simpl.
  rewrite Hd, insert_middle. rewrite <- app_assoc. reflexivity.
Qed.

Lemma replace_id_in_waiting (s : queues) (new old : notification)
    (pre post : list notification) :
  id_free (id new) (displayed s) ->
  waiting s = pre ++ old :: post ->
  id_free (id new) pre ->
  id old = id new ->
  let new' := set_dup_count new (dup_count old) in
  queues_notification_replace_id new s
  = Returns (true, new')
      (set_calls (set_waiting s (pre ++ new' :: post))
         (calls s ++ [notification_free old])).
Proof.
  intros Hd Hw Hpre Hid new'.
  unfold queues_notification_replace_id, bind, get.
  rewrite (find_link_none _ (displayed s)) by (apply id_free_eqb; assumption).
  rewrite Hw, (find_link_first _ pre old post);
    [| apply id_free_eqb; assumption | apply Z.eqb_eq; assumption].
  unfold modify, extern, modify, ret. simpl.
  rewrite Hw, insert_middle. reflexivity.
Qed.

Lemma replace_id_no_match (s : queues) (new : notification) :
  id_free (id new) (displayed s) ->
  id_free (id new) (waiting s) ->
  queues_notification_replace_id new s = Returns (false, new) s.
Proof.
  intros Hd Hw. unfold queues_notification_replace_id, bind, get.
  rewrite (find_link_none _ (displayed s)) by (apply id_free_eqb; assumption).
  rewrite (find_link_none _ (waiting s)) by (apply id_free_eqb; assumption).
  reflexivity.
Qed.

(** What [queues_notification_insert] does with a notification that
    carries an identifier and is not discarded. *)
Lemma insert_with_id (s : queues) (n : notification) :
  discarded n = false -> id n <> 0 ->
  queues_notification_insert n s
  = match queues_notification_replace_id n s with
    | Returns (true, n') s' => Returns (id n') (printed n' s')
    | Returns (false, n') s' =>
        Returns (id n')
          (printed n'
             (set_waiting s'
                (g_queue_insert_sorted notification_cmp_data (waiting s') n')))
    | AssertFailed => AssertFailed
    end.
Proof.
  intros Hdis Hid. destruct (discarded_false n Hdis) as (H1 & H2 & H3 & H4).
  unfold queues_notification_insert. rewrite H1, H2, H3, H4.
  replace (id n =? 0) with false by lia.
  unfold bind at 1 2. 
  destruct (queues_notification_replace_id n s) as [[[|] n'] s'|];
    simpl; unfold printed, bind, insert_sorted_waiting, modify, extern, modify, ret;
    destruct (print_notifications settings); reflexivity.
Qed.

(** C3, amended.  An insertion of [new], which carries a non-zero
    identifier and is not discarded, looks for the first notification
    with that identifier in [displayed], then in [waiting].  On a match
    the slot takes the new notification, which takes over the duplicate
    counter of the old one; the old one is freed; the call reports the
    match and the insertion returns the identifier.  Only a match in
    [displayed] stamps the visibility-start with the clock and runs the
    script for the new content; a match in [waiting] does neither.
    Without a match the call reports none and the insertion puts the
    notification into [waiting] at its sorted position. *)
Theorem replace_id_swaps_slot (s : queues) (new : notification) :
  (forall pre old post,
     displayed s = pre ++ old :: post ->
     id_free (id new) pre -> id old = id new ->
     let new' := set_dup_count (set_start new (clock (clock_reads s)))
                   (dup_count old) in
     let s' := set_calls
                 (set_clock_reads (set_displayed s (pre ++ new' :: post))
                    (S (clock_reads s)))
                 (calls s ++ [notification_run_script new';
                              notification_free old]) in
     queues_notification_replace_id new s = Returns (true, new') s'
     /\ (discarded new = false -> id new <> 0 ->
         queues_notification_insert new s
         = Returns (id new) (printed new' s')))
  /\ (forall pre old post,
        id_free (id new) (displayed s) ->
        waiting s = pre ++ old :: post ->
        id_free (id new) pre -> id old = id new ->
        let new' := set_dup_count new (dup_count old) in
        let s' := set_calls (set_waiting s (pre ++ new' :: post))
                    (calls s ++ [notification_free old]) in
        queues_notification_replace_id new s = Returns (true, new') s'
        /\ (discarded new = false -> id new <> 0 ->
            queues_notification_insert new s
            = Returns (id new) (printed new' s')))
  /\ (id_free (id new) (displayed s) ->
      id_free (id new) (waiting s) ->
      queues_notification_replace_id new s = Returns (false, new) s
      /\ (discarded new = false -> id new <> 0 ->
          queues_notification_insert new s
          = Returns (id new)
              (printed new
                 (set_waiting s
                    (g_queue_insert_sorted notification_cmp_data
                       (waiting s) new))))).
Proof.
  split; [|split].
  - intros pre old post Hd Hpre Hid new' s'.
    pose proof (replace_id_in_displayed s new old pre post Hd Hpre Hid) as Hr.
    split; [exact Hr|]. intros Hdis Hnz.
    rewrite insert_with_id by assumption. rewrite Hr. reflexivity.
  - intros pre old post Hd Hw Hpre Hid new' s'.
    pose proof (replace_id_in_waiting s new old pre post Hd Hw Hpre Hid) as Hr.
    split; [exact Hr|]. intros Hdis Hnz.
    rewrite insert_with_id by assumption. rewrite Hr. reflexivity.
  - intros Hd Hw.
    pose proof (replace_id_no_match s new Hd Hw) as Hr.
    split; [exact Hr|]. intros Hdis Hnz.
    rewrite insert_with_id by assumption. rewrite Hr. reflexivity.
Qed.

(** ** Insertion *)

Lemma in_insert_sorted (q : list notification) (n : notification) :
  In n (g_queue_insert_sorted notification_cmp_data q n).
Proof.
  induction q as [|x q IH]; simpl; [auto|].
  destruct (notification_cmp_data x n <? 0); simpl; auto.
Qed.

(** [queues_notification_replace_id] returns; when it reports a match,
    the new notification is in a queue. *)
Lemma replace_id_returns (s : queues) (new : notification) :
  exists b new' s',
    queues_notification_replace_id new s = Returns (b, new') s'
    /\ id new' = id new
    /\ same_but_stamp new' new
    /\ pause_displayed s' = pause_displayed s
    /\ (if b then In new' (waiting s' ++ displayed s')
        else s' = s /\ new' = new).
Proof.
  unfold queues_notification_replace_id, bind, get.
  destruct (find_link _ (displayed s)) as [[i old]|] eqn:Hd.
  - apply find_link_some in Hd.
    destruct Hd as (pre & post & Hd & <- & _ & _).
    do 3 eexists. split; [reflexivity|]. simpl.
    rewrite Hd, insert_middle. repeat split.
    apply in_or_app. right. apply in_or_app. right. left. reflexivity.
  - destruct (find_link _ (waiting s)) as [[i old]|] eqn:Hw.
    + apply find_link_some in Hw.
      destruct Hw as (pre & post & Hw & <- & _ & _).
      do 3 eexists. split; [reflexivity|]. simpl.
      rewrite Hw, insert_middle. repeat split.
      apply in_or_app. left. apply in_or_app. right. left. reflexivity.
    + do 3 eexists. split; [reflexivity|]. simpl. repeat split.
Qed.

Lemma stack_duplicate_returns (s : queues) (n : notification) :
  exists b n' s',
    queues_stack_duplicate n s = Returns (b, n') s'
    /\ id n' = id n
    /\ same_but_stamp n' n
    /\ pause_displayed s' = pause_displayed s
    /\ (if b then In n' (waiting s' ++ displayed s')
        else s' = s /\ n' = n).
Proof.
  unfold queues_stack_duplicate, bind, get.
  destruct (find_link _ (displayed s)) as [[i old]|] eqn:Hd.
  - apply find_link_some in Hd.
    destruct Hd as (pre & post & Hd & <- & _ & _).
    do 3 eexists. split; [reflexivity|]. simpl.
    rewrite Hd, insert_middle. repeat split.
    apply in_or_app. right. apply in_or_app. right. left. reflexivity.
  - destruct (find_link _ (waiting s)) as [[i old]|] eqn:Hw.
    + apply find_link_some in Hw.
      destruct Hw as (pre & post & Hw & <- & _ & _).
      do 3 eexists. split; [reflexivity|]. simpl.
      rewrite Hw, insert_middle. repeat split.
      apply in_or_app. left. apply in_or_app. right. left. reflexivity.
    + do 3 eexists. split; [reflexivity|]. simpl. repeat split.
Qed.

(** What [queues_notification_insert] does with a notification that
    carries no identifier and is not discarded. *)
Lemma insert_fresh (s : queues) (n : notification) :
  discarded n = false -> id n = 0 ->
  let next := int_add (next_notification_id s) 1 in
  let n1 := set_id n next in
  let s1 := set_next_notification_id s next in
  queues_notification_insert n s
  = if negb (stack_duplicates settings) then
      Returns next
        (printed n1
           (set_waiting s1
              (g_queue_insert_sorted notification_cmp_data (waiting s1) n1)))
    else
      match queues_stack_duplicate n1 s1 with
      | Returns (true, n') s' => Returns (id n') (printed n' s')
      | Returns (false, n') s' =>
          Returns (id n')
            (printed n'
               (set_waiting s'
                  (g_queue_insert_sorted notification_cmp_data
                     (waiting s') n')))
      | AssertFailed => AssertFailed
      end.
Proof.
  intros Hdis Hid next n1 s1.
  destruct (discarded_false n Hdis) as (H1 & H2 & H3 & H4).
  unfold queues_notification_insert. rewrite H1, H2, H3, H4, Hid. simpl.
  unfold bind at 1 2. unfold get at 1. unfold bind at 1. unfold modify at 1.
  fold next. fold n1. fold s1.
  destruct (stack_duplicates settings); simpl.
  - unfold bind at 1.
    destruct (queues_stack_duplicate n1 s1) as [[[|] n'] s'|]; simpl;
      unfold printed, bind, insert_sorted_waiting, modify, extern, modify, ret;
      destruct (print_notifications settings); reflexivity.
  - unfold printed, bind, insert_sorted_waiting, modify, extern, modify, ret.
    destruct (print_notifications settings); reflexivity.
Qed.

Lemma printed_queues (n : notification) (s : queues) :
  waiting (printed n s) = waiting s
  /\ displayed (printed n s) = displayed s
  /\ pause_displayed (printed n s) = pause_displayed s.
Proof. unfold printed. destruct (print_notifications settings); auto. Qed.

Lemma int_add_counter (s : queues) :
  counter_in_range s ->
  int_add (next_notification_id s) 1 = next_notification_id s + 1.
Proof.
  unfold counter_in_range, INT_MAX. intros H. unfold int_add.
  apply wrap32_in_range. unfold in_int, INT_MIN, INT_MAX. lia.
Qed.

(** A notification that is not discarded is answered with its final
    identifier, which is not 0, and is in a queue under it. *)
Lemma insert_enqueues (s : queues) (n : notification) :
  counter_in_range s ->
  discarded n = false ->
  exists n' s',
    queues_notification_insert n s = Returns (id n') s'
    /\ id n' <> 0
    /\ id n' = (if id n =? 0 then next_notification_id s + 1 else id n)
    /\ same_but_stamp n' (set_id n (id n'))
    /\ In n' (waiting s' ++ displayed s')
    /\ pause_displayed s' = pause_displayed s.
Proof.
  intros Hc Hdis. destruct (Z.eqb_spec (id n) 0) as [Hid | Hid].
  - rewrite (insert_fresh s n Hdis Hid). rewrite (int_add_counter s Hc).
    set (next := next_notification_id s + 1).
    assert (Hnext : next <> 0) by (unfold counter_in_range in Hc; lia).
    destruct (stack_duplicates settings); simpl.
    + destruct (stack_duplicate_returns
                  (set_next_notification_id s next) (set_id n next))
        as (b & n' & s' & -> & Hid' & Hsame & Hp & Hb).
      simpl in Hid'.
      destruct (printed_queues n' s') as (Pw & Pd & Pp).
      destruct b.
      * exists n', (printed n' s'). rewrite Pw, Pd, Pp, Hid'.
        simpl in Hp. repeat split; auto.
      * destruct Hb as [-> ->]. exists (set_id n next). eexists.
        split; [reflexivity|].
        match goal with |- context [printed ?a ?b] =>
          destruct (printed_queues a b) as (Qw & Qd & Qp)
        end. rewrite Qw, Qd, Qp. simpl. repeat split; auto.
        apply in_or_app. left. apply in_insert_sorted.
    + exists (set_id n next). eexists. split; [reflexivity|].
      match goal with |- context [printed ?a ?b] =>
          destruct (printed_queues a b) as (Qw & Qd & Qp)
        end. rewrite Qw, Qd, Qp. simpl. repeat split; auto.
      apply in_or_app. left. apply in_insert_sorted.
  - rewrite (insert_with_id s n Hdis Hid).
    destruct (replace_id_returns s n)
      as (b & n' & s' & -> & Hid' & Hsame & Hp & Hb).
    assert (Hset : set_id n (id n') = n)
      by (rewrite Hid'; destruct n; reflexivity).
    destruct b.
    + destruct (printed_queues n' s') as (Pw & Pd & Pp).
      exists n', (printed n' s'). rewrite Pw, Pd, Pp, Hset.
      repeat split; auto; congruence.
    + destruct Hb as [-> ->]. exists n. eexists. split; [reflexivity|].
      match goal with |- context [printed ?a ?b] =>
          destruct (printed_queues a b) as (Qw & Qd & Qp)
        end. rewrite Qw, Qd, Qp. simpl. rewrite Hset.
      repeat split; auto.
      apply in_or_app. left. apply in_insert_sorted.
Qed.

(** C7.  While the identifier counter is in range,
    [queues_notification_insert] returns, and returns 0 exactly for a
    notification it discards: one with an empty [msg] (the script is run
    first when [always_run_script] is set, and the skip is logged), or
    one whose summary is a command string, for which the pause flag is
    set, cleared or toggled.  A discarded notification changes no queue.
    Every other notification is answered with its final identifier,
    which is not 0, and is then in [waiting] or [displayed] under that
    identifier. *)
Theorem insert_returns_zero_iff_discarded (s : queues) (n : notification) :
  counter_in_range s ->
  exists r s',
    queues_notification_insert n s = Returns r s'
    /\ (r = 0 <-> discarded n = true)
    /\ (discarded n = true ->
        waiting s' = waiting s /\ displayed s' = displayed s
        /\ history s' = history s
        /\ next_notification_id s' = next_notification_id s)
    /\ (msg n = ""%string ->
        s' = set_calls s
               (calls s
                ++ (if always_run_script settings
                    then [notification_run_script n] else [])
                ++ [LOG_M (body n) (summary n)]))
    /\ (msg n <> ""%string -> summary n = "DUNST_COMMAND_PAUSE"%string ->
        s' = set_pause_displayed s true)
    /\ (msg n <> ""%string -> summary n = "DUNST_COMMAND_RESUME"%string ->
        s' = set_pause_displayed s false)
    /\ (msg n <> ""%string -> summary n = "DUNST_COMMAND_TOGGLE"%string ->
        s' = set_pause_displayed s (negb (pause_displayed s)))
    /\ (discarded n = false ->
        exists n',
          r = id n'
          /\ r = (if id n =? 0 then next_notification_id s + 1 else id n)
          /\ same_but_stamp n' (set_id n r)
          /\ In n' (waiting s' ++ displayed s')
          /\ pause_displayed s' = pause_displayed s).
Proof.
  intros Hc. destruct (discarded n) eqn:Hdis.
  - unfold discarded, is_command in Hdis.
    unfold queues_notification_insert.
    destruct (String.eqb_spec (msg n) "") as [Hm | Hm].
    + unfold bind, extern, modify, ret.
      destruct (always_run_script settings);
        (eexists _, _; split; [reflexivity|]; simpl;
         repeat split; try tauto; try congruence;
         destruct s; simpl; rewrite <- ?app_assoc; reflexivity).
    + destruct (String.eqb_spec "DUNST_COMMAND_PAUSE" (summary n)) as [H1|H1];
        [|destruct (String.eqb_spec "DUNST_COMMAND_RESUME" (summary n))
            as [H2|H2];
          [|destruct (String.eqb_spec "DUNST_COMMAND_TOGGLE" (summary n))
              as [H3|H3]; [|discriminate]]];
        (eexists _, _; split; [reflexivity|]; simpl;
         repeat split; try tauto; try congruence).
  - destruct (insert_enqueues s n Hc Hdis)
      as (n' & s' & Hrun & Hnz & Hid & Hsame & Hin & Hp).
    exists (id n'), s'. split; [exact Hrun|].
    destruct (discarded_false n Hdis) as (H1 & H2 & H3 & H4).
    apply String.eqb_neq in H1, H2, H3, H4.
    repeat split; try congruence; try tauto.
    intros _. exists n'. auto.
Qed.

(** ** Stacking of duplicates *)

Lemma stack_in_displayed (s : queues) (n orig : notification)
    (pre post : list notification) :
  displayed s = pre ++ orig :: post ->
  no_duplicate n pre ->
  notification_is_duplicate orig n = true ->
  let orig' := stack_onto orig n in
  let n' := set_dup_count (set_start n (clock (clock_reads s)))
              (dup_count orig') in
  queues_stack_duplicate n s
  = Returns (true, n')
      (set_calls
         (set_clock_reads (set_displayed s (pre ++ n' :: post))
            (S (clock_reads s)))
         (calls s ++ [signal_notification_closed orig' 1;
                      notification_free orig'])).
Proof.
  intros Hd Hpre Hdup orig' n'.
  unfold queues_stack_duplicate, bind, get.
  rewrite Hd, (find_link_first _ pre orig post) by assumption.
  unfold time_monotonic_now, modify, extern, modify, ret. simpl.
  rewrite Hd, insert_middle. rewrite <- app_assoc. reflexivity.
Qed.

Lemma stack_in_waiting (s : queues) (n orig : notification)
    (pre post : list notification) :
  no_duplicate n (displayed s) ->
  waiting s = pre ++ orig :: post ->
  no_duplicate n pre ->
  notification_is_duplicate orig n = true ->
  let orig' := stack_onto orig n in
  let n' := set_dup_count n (dup_count orig') in
  queues_stack_duplicate n s
  = Returns (true, n')
      (set_calls (set_waiting s (pre ++ n' :: post))
         (calls s ++ [signal_notification_closed orig' 1;
                      notification_free orig'])).
Proof.
  intros Hd Hw Hpre Hdup orig' n'.
  unfold queues_stack_duplicate, bind, get.
  rewrite (find_link_none _ (displayed s)) by assumption.
  rewrite Hw, (find_link_first _ pre orig post) by assumption.
  unfold modify, extern, modify, ret. simpl.
  rewrite Hw, insert_middle. rewrite <- app_assoc. reflexivity.
Qed.

Lemma stack_onto_equal_progress (orig n : notification) :
  progress orig = progress n ->
  in_int (dup_count orig + 1) ->
  stack_onto orig n = set_dup_count orig (dup_count orig + 1).
Proof.
  intros Hp Hr. unfold stack_onto, int_add.
  rewrite Hp, Z.eqb_refl, wrap32_in_range by assumption. reflexivity.
Qed.

Lemma stack_onto_id (orig n : notification) :
  id (stack_onto orig n) = id orig.
Proof. unfold stack_onto. destruct (_ =? _); reflexivity. Qed.

(** C4, amended.  Duplicate stacking is enabled and [n], fresh and not
    discarded, is a duplicate of [orig], the first such notification in
    [displayed] or else in [waiting], with equal progress.  The insertion
    puts [n] into the slot of [orig], so the pair is one queue entry; the
    duplicate counter of that entry is the counter of [orig] plus one (2
    only when the counter of [orig] was 1); [orig], its counter
    incremented, is reported closed with reason 1 and then freed. *)
Theorem stacking_counts (s : queues) (n orig : notification)
    (pre post : list notification) :
  stack_duplicates settings = true ->
  discarded n = false ->
  id n = 0 ->
  let next := int_add (next_notification_id s) 1 in
  let n1 := set_id n next in
  no_duplicate n1 pre ->
  notification_is_duplicate orig n1 = true ->
  progress orig = progress n ->
  in_int (dup_count orig + 1) ->
  let orig' := set_dup_count orig (dup_count orig + 1) in
  let closed := [signal_notification_closed orig' 1;
                 notification_free orig'] in
  (displayed s = pre ++ orig :: post ->
   let n' := set_dup_count (set_start n1 (clock (clock_reads s)))
               (dup_count orig + 1) in
   queues_notification_insert n s
   = Returns next
       (printed n'
          (set_calls
             (set_clock_reads
                (set_displayed (set_next_notification_id s next)
                   (pre ++ n' :: post))
                (S (clock_reads s)))
             (calls s ++ closed))))
  /\ (no_duplicate n1 (displayed s) ->
      waiting s = pre ++ orig :: post ->
      let n' := set_dup_count n1 (dup_count orig + 1) in
      queues_notification_insert n s
      = Returns next
          (printed n'
             (set_calls
                (set_waiting (set_next_notification_id s next)
                   (pre ++ n' :: post))
                (calls s ++ closed)))).
Proof.
  intros Hstack Hdis Hid next n1 Hpre Hdup Hprog Hrange orig' closed.
  pose proof (stack_onto_equal_progress orig n1 Hprog Hrange) as Honto.
  split.
  - intros Hd n'. rewrite (insert_fresh s n Hdis Hid), Hstack. simpl.
    fold next. fold n1.
    rewrite (stack_in_displayed (set_next_notification_id s next) n1 orig
               pre post Hd Hpre Hdup).
    rewrite Honto. reflexivity.
  - intros Hnd Hw n'. rewrite (insert_fresh s n Hdis Hid), Hstack. simpl.
    fold next. fold n1.
    rewrite (stack_in_waiting (set_next_notification_id s next) n1 orig
               pre post Hnd Hw Hpre Hdup).
    rewrite Honto. reflexivity.
Qed.

(** ** Closing by identifier *)

Lemma close_id_unknown (s : queues) (i reason : Z) :
  id_free i (displayed s) -> id_free i (waiting s) ->
  queues_notification_close_id i reason s = Returns tt s.
Proof.
  intros Hd Hw. unfold queues_notification_close_id, bind, get.
  rewrite (find_link_none _ (displayed s)) by (apply id_free_eqb; assumption).
  unfold ret.
  rewrite (find_link_none _ (waiting s)) by (apply id_free_eqb; assumption).
  reflexivity.
Qed.

Lemma id_free_app (i : Z) (q1 q2 : list notification) :
  id_free i (q1 ++ q2) <-> id_free i q1 /\ id_free i q2.
Proof. unfold id_free. apply Forall_app. Qed.

Lemma id_free_cons (i : Z) (n : notification) (q : list notification) :
  id_free i (n :: q) <-> id n <> i /\ id_free i q.
Proof. unfold id_free. apply Forall_cons_iff. Qed.

(** C10, amended.  The identifier of a fresh notification is drawn from
    the counter before the scan for duplicates, which is run on the
    notification with its new identifier.  When the notification takes
    the slot of a duplicate [orig], the insertion returns the new
    identifier, the slot carries it, and [orig] is freed.  If the
    identifier of [orig] differs from the new one and no other queue
    entry carries it, it is afterwards the identifier of no queue entry
    and closing it changes nothing. *)
Theorem absorbed_takes_new_id (s : queues) (n orig : notification)
    (pre post : list notification) :
  stack_duplicates settings = true ->
  discarded n = false ->
  id n = 0 ->
  let next := int_add (next_notification_id s) 1 in
  let n1 := set_id n next in
  no_duplicate n1 pre ->
  notification_is_duplicate orig n1 = true ->
  (displayed s = pre ++ orig :: post ->
   exists n' s',
     queues_notification_insert n s = Returns next s'
     /\ next_notification_id s' = next
     /\ id n' = next
     /\ displayed s' = pre ++ n' :: post
     /\ waiting s' = waiting s
     /\ In (notification_free (stack_onto orig n1)) (calls s')
     /\ (id orig <> next ->
         id_free (id orig) (pre ++ post) ->
         id_free (id orig) (waiting s) ->
         id_free (id orig) (waiting s' ++ displayed s')
         /\ forall reason,
              queues_notification_close_id (id orig) reason s'
              = Returns tt s'))
  /\ (no_duplicate n1 (displayed s) ->
      waiting s = pre ++ orig :: post ->
      exists n' s',
        queues_notification_insert n s = Returns next s'
        /\ next_notification_id s' = next
        /\ id n' = next
        /\ waiting s' = pre ++ n' :: post
        /\ displayed s' = displayed s
        /\ In (notification_free (stack_onto orig n1)) (calls s')
        /\ (id orig <> next ->
            id_free (id orig) (pre ++ post) ->
            id_free (id orig) (displayed s) ->
            id_free (id orig) (waiting s' ++ displayed s')
            /\ forall reason,
                 queues_notification_close_id (id orig) reason s'
                 = Returns tt s')).
Proof.
  intros Hstack Hdis Hid next n1 Hpre Hdup. split.
  - intros Hd. rewrite (insert_fresh s n Hdis Hid), Hstack. simpl.
    fold next. fold n1.
    rewrite (stack_in_displayed (set_next_notification_id s next) n1 orig
               pre post Hd Hpre Hdup).
    exists (set_dup_count (set_start n1 (clock (clock_reads s)))
              (dup_count (stack_onto orig n1))).
    eexists. split; [reflexivity|].
    match goal with |- context [printed ?a ?b] =>
      destruct (printed_queues a b) as (Pw & Pd & _)
    end.
    rewrite Pw, Pd.
    assert (Hcalls : forall a b c, In c (calls b) -> In c (calls (printed a b))).
    { intros a b c Hc. unfold printed.
      destruct (print_notifications settings); simpl; [|assumption].
      apply in_or_app. left. assumption. }
    split; [unfold printed; destruct (print_notifications settings);
            reflexivity|].
    split; [reflexivity|]. split; [reflexivity|]. split; [reflexivity|].
    split.
    { apply Hcalls. simpl. apply in_or_app. right. right. left.
      reflexivity. }
    intros Hne Hrest Hw.
    assert (Hfree : id_free (id orig)
              (waiting s
               ++ pre ++ set_dup_count
                    (set_start n1
                       (clock (clock_reads (set_next_notification_id s next))))
                    (dup_count (stack_onto orig n1)) :: post)).
    { apply id_free_app. split; [assumption|].
      apply id_free_app in Hrest. destruct Hrest as [H1 H2].
      apply id_free_app. split; [assumption|].
      apply id_free_cons. split; [simpl; congruence | assumption]. }
    split; [exact Hfree|].
    intros reason. apply id_free_app in Hfree. destruct Hfree as [F1 F2].
    apply close_id_unknown; [rewrite Pd | rewrite Pw]; assumption.
  - intros Hnd Hw. rewrite (insert_fresh s n Hdis Hid), Hstack. simpl.
    fold next. fold n1.
    rewrite (stack_in_waiting (set_next_notification_id s next) n1 orig
               pre post Hnd Hw Hpre Hdup).
    exists (set_dup_count n1 (dup_count (stack_onto orig n1))).
    eexists. split; [reflexivity|].
    match goal with |- context [printed ?a ?b] =>
      destruct (printed_queues a b) as (Pw & Pd & _)
    end.
    rewrite Pw, Pd.
    assert (Hcalls : forall a b c, In c (calls b) -> In c (calls (printed a b))).
    { intros a b c Hc. unfold printed.
      destruct (print_notifications settings); simpl; [|assumption].
      apply in_or_app. left. assumption. }
    split; [unfold printed; destruct (print_notifications settings);
            reflexivity|].
    split; [reflexivity|]. split; [reflexivity|]. split; [reflexivity|].
    split.
    { apply Hcalls. simpl. apply in_or_app. right. right. left.
      reflexivity. }
    intros Hne Hrest Hd.
    assert (Hfree : id_free (id orig)
              ((pre ++ set_dup_count n1 (dup_count (stack_onto orig n1))
                    :: post) ++ displayed s)).
    { apply id_free_app. split; [|assumption].
      apply id_free_app in Hrest. destruct Hrest as [H1 H2].
      apply id_free_app. split; [assumption|].
      apply id_free_cons. split; [simpl; congruence | assumption]. }
    split; [exact Hfree|].
    intros reason. apply id_free_app in Hfree. destruct Hfree as [F1 F2].
    apply close_id_unknown; [rewrite Pd | rewrite Pw]; assumption.
Qed.

Lemma close_id_in_displayed (s : queues) (reason : Z) (n : notification)
    (pre post : list notification) :
  displayed s = pre ++ n :: post ->
  id_free (id n) pre ->
  id_free (id n) (waiting s) ->
  queues_notification_close_id (id n) reason s
  = queues_history_push n (unlinked_displayed n reason (pre ++ post) s).
Proof.
  intros Hd Hpre Hw. unfold queues_notification_close_id, bind, get.
  rewrite Hd, (find_link_first _ pre n post);
    [| apply id_free_eqb; assumption | apply Z.eqb_refl].
  unfold modify, ret, g_queue_delete_link. simpl.
  rewrite (find_link_none _ (waiting s)) by (apply id_free_eqb; assumption).
  rewrite Hd, delete_middle. unfold unlinked_displayed, extern, modify.
  destruct (redisplayed n); reflexivity.
Qed.

Lemma close_id_in_waiting (s : queues) (reason : Z) (n : notification)
    (pre post : list notification) :
  id_free (id n) (displayed s) ->
  waiting s = pre ++ n :: post ->
  id_free (id n) pre ->
  queues_notification_close_id (id n) reason s
  = queues_history_push n (unlinked_waiting n reason (pre ++ post) s).
Proof.
  intros Hd Hw Hpre. unfold queues_notification_close_id, bind, get.
  rewrite (find_link_none _ (displayed s)) by (apply id_free_eqb; assumption).
  unfold ret.
  rewrite Hw, (find_link_first _ pre n post);
    [| apply id_free_eqb; assumption | apply Z.eqb_refl].
  unfold c_assert, modify, g_queue_delete_link. simpl.
  rewrite Hw, delete_middle. unfold unlinked_waiting, extern, modify.
  destruct (redisplayed n); reflexivity.
Qed.

Lemma history_push_returns (s : queues) (n : notification) :
  exists s',
    queues_history_push n s = Returns tt s'
    /\ waiting s' = waiting s /\ displayed s' = displayed s
    /\ pause_displayed s' = pause_displayed s
    /\ clock_reads s' = clock_reads s.
Proof.
  unfold queues_history_push, bind, get.
  destruct (history_ignore n); simpl.
  - eexists. split; [reflexivity|]. auto.
  - destruct (_ && _).
    + destruct (history s) as [|o h]; simpl;
        eexists; (split; [reflexivity|]); auto.
    + eexists. split; [reflexivity|]. auto.
Qed.

(** ** The timeout scan *)

Lemma lookup_middle {A} (pre : list A) (x : A) (post : list A) :
  (pre ++ x :: post) !! length pre = Some x.
Proof. induction pre as [|y pre IH]; simpl; [reflexivity | exact IH]. Qed.


(** ** Sorted queues *)

Lemma queue_sorted_cons (a : notification) (q : list notification) :
  queue_sorted (a :: q) = true ->
  queue_sorted q = true.
Proof.
  destruct q as [|b q]; [reflexivity|]. simpl.
  intros H. apply andb_true_iff in H. destruct H as [_ H]. exact H.
Qed.

Lemma queue_sorted_cons2 (a b : notification) (q : list notification) :
  queue_sorted (a :: b :: q) = true <->
  notification_cmp_data a b <= 0 /\ queue_sorted (b :: q) = true.
Proof.
  change (queue_sorted (a :: b :: q))
    with ((notification_cmp_data a b <=? 0) && queue_sorted (b :: q)).
  rewrite andb_true_iff, Z.leb_le. reflexivity.
Qed.

(** Sortedness of [a :: q] from the head relation. *)
Lemma queue_sorted_head (a : notification) (q : list notification) :
  queue_sorted q = true ->
  (forall b, head q = Some b -> notification_cmp_data a b <= 0) ->
  queue_sorted (a :: q) = true.
Proof.
  destruct q as [|b q]; [reflexivity|]. intros Hq Hh.
  apply queue_sorted_cons2. split; [apply Hh; reflexivity | assumption].
Qed.

Lemma head_insert_sorted (q : list notification) (x : notification) :
  head (g_queue_insert_sorted notification_cmp_data q x) = Some x
  \/ (exists b, head q = Some b /\ notification_cmp_data b x < 0
      /\ head (g_queue_insert_sorted notification_cmp_data q x) = Some b).
Proof.
  destruct q as [|b q]; simpl; [left; reflexivity|].
  destruct (Z.ltb_spec (notification_cmp_data b x) 0); simpl.
  - right. exists b. auto.
  - left. reflexivity.
Qed.

Lemma insert_sorted_sorted (q : list notification) (x : notification) :
  cmp_total ->
  queue_sorted q = true ->
  queue_sorted (g_queue_insert_sorted notification_cmp_data q x) = true.
Proof.
  intros Htot. induction q as [|a q IH]; intros Hq; [reflexivity|].
  simpl. destruct (Z.ltb_spec (notification_cmp_data a x) 0) as [Hlt | Hge].
  - apply queue_sorted_head; [apply IH; eapply queue_sorted_cons; eassumption|].
    intros b Hb.
    destruct (head_insert_sorted q x) as [Hx | (c & Hc & _ & Hc')].
    + rewrite Hx in Hb. injection Hb as <-. lia.
    + rewrite Hc' in Hb. injection Hb as <-.
      destruct q as [|c' q']; [discriminate|]. injection Hc as ->.
      apply queue_sorted_cons2 in Hq. destruct Hq as [Hq _]. exact Hq.
  - apply queue_sorted_cons2. split; [apply Htot; lia | assumption].
Qed.

Lemma delete_sorted (q : list notification) (i : nat) :
  cmp_transitive ->
  queue_sorted q = true ->
  queue_sorted (delete i q) = true.
Proof.
  intros Htr. revert i. induction q as [|a q IH]; intros i Hq;
    [destruct i; reflexivity|].
  destruct i as [|i]; [eapply queue_sorted_cons; eassumption|].
  change (delete (S i) (a :: q)) with (a :: delete i q).
  apply queue_sorted_head; [apply IH; eapply queue_sorted_cons; eassumption|].
  intros b Hb. destruct q as [|c q]; [destruct i; discriminate|].
  apply queue_sorted_cons2 in Hq. destruct Hq as [Hac Hq].
  destruct i as [|i].
  - simpl in Hb. destruct q as [|d q]; [discriminate|].
    injection Hb as <-. apply queue_sorted_cons2 in Hq.
    destruct Hq as [Hcd _]. apply (Htr a c d); assumption.
  - simpl in Hb. injection Hb as <-. assumption.
Qed.

(** ** The loops of [queues_update] *)

Lemma update_paused_loop_spec (fuel : nat) :
  forall s,
    (length (displayed s) <= fuel)%nat ->
    update_paused_loop fuel s
    = Returns tt
        (set_waiting (set_displayed s [])
           (fold_left (g_queue_insert_sorted notification_cmp_data)
              (displayed s) (waiting s))).
Proof.
  induction fuel as [|fuel IH]; intros s Hlen.
  - destruct s as [w d h l i p c e]. simpl in *.
    destruct d; [reflexivity | simpl in Hlen; lia].
  - simpl. unfold bind at 1. unfold get.
    destruct (displayed s) as [|n d] eqn:Hd.
    + destruct s; simpl in *; subst; reflexivity.
    + simpl. unfold bind, modify, insert_sorted_waiting, modify.
      rewrite IH by (simpl in *; lia). destruct s; reflexivity.
Qed.

Lemma update_pushback_loop_unfold (fuel iter : nat) (s : queues) :
  update_pushback_loop (S fuel) iter s
  = match displayed s !! iter with
    | None => Returns tt s
    | Some n =>
        if behavior_fullscreen_eqb (fullscreen n) FS_PUSHBACK
        then update_pushback_loop fuel iter (pushback_step s iter n)
        else update_pushback_loop fuel (S iter) s
    end.
Proof.
  simpl. unfold bind at 1. unfold get.
  destruct (displayed s !! iter) as [n|]; [|reflexivity].
  destruct (behavior_fullscreen_eqb (fullscreen n) FS_PUSHBACK);
    reflexivity.
Qed.

Lemma update_promote_loop_unfold (fs : bool) (fuel iter : nat) (s : queues) :
  update_promote_loop fs (S fuel) iter s
  = match waiting s !! iter with
    | None => Returns tt s
    | Some n =>
        if displayed_full s then Returns tt s
        else if held_back fs n
             then update_promote_loop fs fuel (S iter) s
             else update_promote_loop fs fuel iter (promote_step s iter n)
    end.
Proof.
  simpl. unfold bind at 1. unfold get.
  destruct (waiting s !! iter) as [n|]; [|reflexivity].
  destruct (displayed_full s); [reflexivity|].
  destruct (held_back fs n); [reflexivity|].
  unfold promote_step, bind, time_monotonic_now, extern, modify,
    insert_sorted_displayed, modify, ret.
  simpl. destruct (negb (redisplayed n) && _); reflexivity.
Qed.

Lemma queues_update_unfold (fs : bool) (s : queues) :
  queues_update fs s
  = if pause_displayed s then update_paused_loop (length (displayed s)) s
    else
      match (if fs then update_pushback_loop (length (displayed s)) O s
             else Returns tt s) with
      | Returns _ s1 => update_promote_loop fs (length (waiting s1)) O s1
      | AssertFailed => AssertFailed
      end.
Proof.
  unfold queues_update, bind, get. destruct (pause_displayed s);
    [reflexivity|]. destruct fs; reflexivity.
Qed.

(** Invariants of the two cursor loops of [queues_update]: what every
    pass keeps holds when the loop returns, and the loop returns. *)
Lemma update_pushback_loop_inv (P : queues -> Prop) :
  (forall s iter n,
     P s -> displayed s !! iter = Some n ->
     behavior_fullscreen_eqb (fullscreen n) FS_PUSHBACK = true ->
     P (pushback_step s iter n)) ->
  forall fuel iter s,
    P s -> exists s', update_pushback_loop fuel iter s = Returns tt s' /\ P s'.
Proof.
  intros Hstep. induction fuel as [|fuel IH]; intros iter s HP.
  - exists s. split; [reflexivity | assumption].
  - rewrite update_pushback_loop_unfold.
    destruct (displayed s !! iter) as [n|] eqn:Hn;
      [|exists s; split; [reflexivity | assumption]].
    destruct (behavior_fullscreen_eqb (fullscreen n) FS_PUSHBACK) eqn:Hm.
    + apply IH. apply Hstep; assumption.
    + apply IH. assumption.
Qed.

Lemma update_promote_loop_inv (fs : bool) (P : queues -> Prop) :
  (forall s iter n,
     P s -> waiting s !! iter = Some n -> displayed_full s = false ->
     held_back fs n = false -> P (promote_step s iter n)) ->
  forall fuel iter s,
    P s ->
    exists s', update_promote_loop fs fuel iter s = Returns tt s' /\ P s'.
Proof.
  intros Hstep. induction fuel as [|fuel IH]; intros iter s HP.
  - exists s. split; [reflexivity | assumption].
  - rewrite update_promote_loop_unfold.
    destruct (waiting s !! iter) as [n|] eqn:Hn;
      [|exists s; split; [reflexivity | assumption]].
    destruct (displayed_full s) eqn:Hfull;
      [exists s; split; [reflexivity | assumption]|].
    destruct (held_back fs n) eqn:Hheld.
    + apply IH. assumption.
    + apply IH. apply Hstep; assumption.
Qed.

Lemma pushback_step_sorted (s : queues) (iter : nat) (n : notification) :
  cmp_total -> cmp_transitive ->
  queues_sorted s -> queues_sorted (pushback_step s iter n).
Proof.
  intros Htot Htr [Hw Hd]. split; simpl.
  - apply insert_sorted_sorted; assumption.
  - apply delete_sorted; assumption.
Qed.

Lemma promote_step_sorted (s : queues) (iter : nat) (n : notification) :
  cmp_total -> cmp_transitive ->
  queues_sorted s -> queues_sorted (promote_step s iter n).
Proof.
  intros Htot Htr [Hw Hd]. unfold promote_step.
  destruct (negb _ && _); split; simpl;
    solve [apply insert_sorted_sorted; assumption
          | apply delete_sorted; assumption].
Qed.

Lemma fold_insert_sorted_sorted (d w : list notification) :
  cmp_total ->
  queue_sorted w = true ->
  queue_sorted
    (fold_left (g_queue_insert_sorted notification_cmp_data) d w) = true.
Proof.
  intros Htot. revert w. induction d as [|n d IH]; intros w Hw;
    [assumption|].
  simpl. apply IH. apply insert_sorted_sorted; assumption.
Qed.

(** [queues_update] keeps sorted queues sorted. *)
Lemma update_sorted (fs : bool) (s : queues) :
  cmp_total -> cmp_transitive ->
  queues_sorted s ->
  exists s', queues_update fs s = Returns tt s' /\ queues_sorted s'.
Proof.
  intros Htot Htr Hs. rewrite queues_update_unfold.
  destruct (pause_displayed s).
  - rewrite update_paused_loop_spec by reflexivity.
    eexists. split; [reflexivity|]. destruct Hs as [Hw Hd].
    split; simpl; [apply fold_insert_sorted_sorted; assumption | reflexivity].
  - assert (Hpush : exists s1,
               (if fs then update_pushback_loop (length (displayed s)) O s
                else Returns tt s) = Returns tt s1 /\ queues_sorted s1).
    { destruct fs; [|exists s; split; [reflexivity | assumption]].
      apply (update_pushback_loop_inv queues_sorted); [|assumption].
      intros s0 iter n H0 _ _. apply pushback_step_sorted; assumption. }
    destruct Hpush as (s1 & -> & Hs1).
    apply (update_promote_loop_inv fs queues_sorted); [|assumption].
    intros s0 iter n H0 _ _ _. apply promote_step_sorted; assumption.
Qed.

(** ** Insertion at the sorted position *)

Lemma existsb_false_forall {A} (p : A -> bool) (q : list A) :
  existsb p q = false -> Forall (fun x => p x = false) q.
Proof.
  induction q as [|x q IH]; simpl; intros H; [constructor|].
  apply orb_false_iff in H. destruct H as [Hx Hq].
  constructor; [assumption | apply IH; assumption].
Qed.

Lemma existsb_app_false {A} (p : A -> bool) (q1 q2 : list A) :
  existsb p (q1 ++ q2) = false ->
  Forall (fun x => p x = false) q1 /\ Forall (fun x => p x = false) q2.
Proof.
  rewrite existsb_app. intros H. apply orb_false_iff in H.
  destruct H as [H1 H2]. split; apply existsb_false_forall; assumption.
Qed.

(** An insertion that is neither discarded nor takes a slot puts the
    notification, with its identifier drawn if it had none, into
    [waiting] at its sorted position, and changes no other queue. *)
Lemma insert_at_sorted_position (s : queues) (n : notification) :
  discarded n = false ->
  takes_slot n s = false ->
  let next := int_add (next_notification_id s) 1 in
  let n' := if id n =? 0 then set_id n next else n in
  let s1 := if id n =? 0 then set_next_notification_id s next else s in
  queues_notification_insert n s
  = Returns (id n')
      (printed n'
         (set_waiting s1
            (g_queue_insert_sorted notification_cmp_data (waiting s) n'))).
Proof.
  intros Hdis Hslot next n' s1. unfold takes_slot in Hslot.
  subst n' s1. destruct (Z.eqb_spec (id n) 0) as [Hid | Hid].
  - rewrite (insert_fresh s n Hdis Hid). fold next.
    destruct (stack_duplicates settings); simpl; [|reflexivity].
    simpl in Hslot. apply existsb_app_false in Hslot.
    destruct Hslot as [Hd Hw].
    unfold queues_stack_duplicate, bind, get. simpl.
    rewrite (find_link_none _ (displayed s)) by exact Hd.
    rewrite (find_link_none _ (waiting s)) by exact Hw.
    reflexivity.
  - rewrite (insert_with_id s n Hdis Hid).
    apply existsb_app_false in Hslot. destruct Hslot as [Hd Hw].
    unfold queues_notification_replace_id, bind, get.
    rewrite (find_link_none _ (displayed s)) by exact Hd.
    rewrite (find_link_none _ (waiting s)) by exact Hw.
    reflexivity.
Qed.

Lemma insert_discarded (s : queues) (n : notification) :
  discarded n = true ->
  exists s',
    queues_notification_insert n s = Returns 0 s'
    /\ waiting s' = waiting s /\ displayed s' = displayed s.
Proof.
  unfold discarded, is_command, queues_notification_insert. intros Hdis.
  destruct (String.eqb (msg n) "").
  - unfold bind, extern, modify, ret.
    destruct (always_run_script settings);
      (eexists; split; [reflexivity|]; split; reflexivity).
  - destruct (String.eqb "DUNST_COMMAND_PAUSE" (summary n));
      [eexists; split; [reflexivity|]; split; reflexivity|].
    destruct (String.eqb "DUNST_COMMAND_RESUME" (summary n));
      [eexists; split; [reflexivity|]; split; reflexivity|].
    destruct (String.eqb "DUNST_COMMAND_TOGGLE" (summary n));
      [eexists; split; [reflexivity|]; split; reflexivity|].
    discriminate.
Qed.

(** C2, amended.  For a comparator that orders notifications
    consistently (it is total and transitive) and queues that are
    sorted: after [queues_update], and after an insertion that does not
    put the notification into the slot of another one, [waiting] and
    [displayed] are sorted.  (An insertion that stacks a duplicate or
    replaces by identifier writes into a slot in place, and
    [queues_history_pop] pushes onto the head of [waiting]; neither
    looks at the order.) *)
Theorem sorted_queues_stay_sorted (s : queues) (n : notification)
    (fs : bool) :
  cmp_total -> cmp_transitive ->
  queues_sorted s ->
  (exists s', queues_update fs s = Returns tt s' /\ queues_sorted s')
  /\ (takes_slot n s = false ->
      exists r s',
        queues_notification_insert n s = Returns r s' /\ queues_sorted s').
Proof.
  intros Htot Htr Hs. split; [apply update_sorted; assumption|].
  intros Hslot. destruct (discarded n) eqn:Hdis.
  - destruct (insert_discarded s n Hdis) as (s' & Hrun & Hw & Hd).
    exists 0, s'. split; [assumption|]. unfold queues_sorted.
    rewrite Hw, Hd. exact Hs.
  - rewrite (insert_at_sorted_position s n Hdis Hslot).
    eexists _, _. split; [reflexivity|]. unfold queues_sorted.
    match goal with |- context [printed ?a ?b] =>
      destruct (printed_queues a b) as (Pw & Pd & _)
    end.
    rewrite Pw, Pd. destruct Hs as [Hw Hd].
    destruct (id n =? 0); split; simpl;
      solve [apply insert_sorted_sorted; assumption | assumption].
Qed.

(** ** The loops end at the end of their queue

    Each cursor loop is given as many passes as its queue has links at
    entry.  More passes change nothing: the loop ends because the
    cursor runs off the queue (or at [break]), never because the passes
    run out. *)

Lemma lookup_past_end {A} (q : list A) (i : nat) :
  (length q <= i)%nat -> q !! i = None.
Proof. apply lookup_ge_None_2. Qed.

Lemma lookup_in_range {A} (q : list A) (i : nat) (x : A) :
  q !! i = Some x -> (i < length q)%nat.
Proof. intros H. apply lookup_lt_Some in H. exact H. Qed.

Lemma length_delete_in_range {A} (q : list A) (i : nat) (x : A) :
  q !! i = Some x -> (S (length (delete i q)) = length q)%nat.
Proof.
  revert i. induction q as [|y q IH]; intros [|i] H; try discriminate.
  - reflexivity.
  - simpl. f_equal. apply IH. exact H.
Qed.

Lemma update_pushback_loop_fuel (fuel1 : nat) :
  forall fuel2 iter s,
    (length (displayed s) - iter <= fuel1)%nat ->
    (length (displayed s) - iter <= fuel2)%nat ->
    update_pushback_loop fuel1 iter s = update_pushback_loop fuel2 iter s.
Proof.
  induction fuel1 as [|fuel1 IH]; intros fuel2 iter s H1 H2.
  - destruct fuel2 as [|fuel2]; [reflexivity|].
    rewrite update_pushback_loop_unfold, lookup_past_end by lia.
    reflexivity.
  - rewrite update_pushback_loop_unfold.
    destruct fuel2 as [|fuel2].
    + rewrite lookup_past_end by lia. reflexivity.
    + rewrite update_pushback_loop_unfold.
      destruct (displayed s !! iter) as [n|] eqn:Hn; [|reflexivity].
      pose proof (lookup_in_range _ _ _ Hn) as Hlt.
      destruct (behavior_fullscreen_eqb (fullscreen n) FS_PUSHBACK).
      * pose proof (length_delete_in_range _ _ _ Hn) as Hlen.
        apply IH; simpl; lia.
      * apply IH; lia.
Qed.

Lemma length_insert_sorted (q : list notification) (x : notification) :
  length (g_queue_insert_sorted notification_cmp_data q x) = S (length q).
Proof.
  induction q as [|a q IH]; simpl; [reflexivity|].
  destruct (_ <? 0); simpl; [rewrite IH|]; reflexivity.
Qed.

Lemma promote_step_queues (s : queues) (iter : nat) (n : notification) :
  waiting (promote_step s iter n) = delete iter (waiting s)
  /\ displayed (promote_step s iter n)
     = g_queue_insert_sorted notification_cmp_data (displayed s)
         (set_start n (clock (clock_reads s)))
  /\ displayed_limit (promote_step s iter n) = displayed_limit s
  /\ pause_displayed (promote_step s iter n) = pause_displayed s
  /\ history (promote_step s iter n) = history s.
Proof.
  unfold promote_step. destruct (negb _ && _); simpl; auto.
Qed.

Lemma update_promote_loop_fuel (fs : bool) (fuel1 : nat) :
  forall fuel2 iter s,
    (length (waiting s) - iter <= fuel1)%nat ->
    (length (waiting s) - iter <= fuel2)%nat ->
    update_promote_loop fs fuel1 iter s = update_promote_loop fs fuel2 iter s.
Proof.
  induction fuel1 as [|fuel1 IH]; intros fuel2 iter s H1 H2.
  - destruct fuel2 as [|fuel2]; [reflexivity|].
    rewrite update_promote_loop_unfold, lookup_past_end by lia.
    reflexivity.
  - rewrite update_promote_loop_unfold.
    destruct fuel2 as [|fuel2].
    + rewrite lookup_past_end by lia. reflexivity.
    + rewrite update_promote_loop_unfold.
      destruct (waiting s !! iter) as [n|] eqn:Hn; [|reflexivity].
      pose proof (lookup_in_range _ _ _ Hn) as Hlt.
      destruct (displayed_full s); [reflexivity|].
      destruct (held_back fs n).
      * apply IH; lia.
      * destruct (promote_step_queues s iter n) as (Hw & _).
        pose proof (length_delete_in_range _ _ _ Hn) as Hlen.
        apply IH; rewrite Hw; lia.
Qed.

Lemma find_link_reaches {A} (p : A -> bool) (q : list A) (i : nat) (x : A) :
  q !! i = Some x -> p x = true ->
  exists j y, find_link p q = Some (j, y) /\ q !! j = Some y.
Proof.
  revert i. induction q as [|a q IH]; intros [|i] Hx Hp; try discriminate.
  - simpl in Hx. injection Hx as ->. simpl. rewrite Hp.
    exists O, x. auto.
  - simpl. destruct (p a) eqn:Ha; [exists O, a; auto|].
    destruct (IH i Hx Hp) as (j & y & -> & Hy). exists (S j), y. auto.
Qed.

(** A pass of the timeout scan moves the cursor one link closer to the
    end of [displayed], unless it stops at the assertion of
    [queues_notification_close_id]. *)
Lemma check_timeouts_visit_progress (is_idle : bool) (iter : nat)
    (n : notification) (s : queues) :
  displayed s !! iter = Some n ->
  match check_timeouts_visit is_idle iter n s with
  | Returns next s' =>
      (length (displayed s') + S iter = length (displayed s) + next)%nat
  | AssertFailed => True
  end.
Proof.
  intros Hn. unfold check_timeouts_visit.
  destruct (is_idle && negb (transient n)).
  - unfold bind, time_monotonic_now, modify, ret. simpl.
    rewrite length_insert. reflexivity.
  - destruct ((start n =? 0) || (timeout n =? 0)); [reflexivity|].
    unfold bind at 1. unfold time_monotonic_now.
    destruct (_ >? _); [|reflexivity].
    unfold bind, queues_notification_close, queues_notification_close_id,
      bind, get.
    destruct (find_link_reaches (fun m => id m =? id n)
                (displayed (set_clock_reads s (S (clock_reads s)))) iter n
                Hn (Z.eqb_refl _)) as (j & y & Hfind & Hy).
    rewrite Hfind. unfold modify at 1. unfold ret at 1.
    pose proof (length_delete_in_range _ _ _ Hy) as Hlen. simpl in Hlen.
    match goal with
    | |- context [find_link ?p (waiting ?st)] =>
        destruct (find_link p (waiting st)) as [[k z]|]
    end.
    + exact I.
    + unfold ret at 1.
      destruct (redisplayed y); unfold extern, modify, ret; simpl;
        match goal with
        | |- context [queues_history_push ?a ?st] =>
            destruct (history_push_returns st a)
              as (s' & Hpush & _ & Hd & _)
        end;
        rewrite Hpush, Hd; simpl; unfold g_queue_delete_link; lia.
Qed.

Lemma check_timeouts_loop_fuel (is_idle : bool) (fuel1 : nat) :
  forall fuel2 iter s,
    (length (displayed s) - iter <= fuel1)%nat ->
    (length (displayed s) - iter <= fuel2)%nat ->
    check_timeouts_loop is_idle fuel1 iter s
    = check_timeouts_loop is_idle fuel2 iter s.
Proof.
  induction fuel1 as [|fuel1 IH]; intros fuel2 iter s H1 H2.
  - destruct fuel2 as [|fuel2]; [reflexivity|].
    simpl. unfold bind, get. rewrite lookup_past_end by lia. reflexivity.
  - destruct fuel2 as [|fuel2].
    + simpl. unfold bind, get. rewrite lookup_past_end by lia. reflexivity.
    + simpl. unfold bind at 1 3. unfold get.
      destruct (displayed s !! iter) as [n|] eqn:Hn; [|reflexivity].
      pose proof (lookup_in_range _ _ _ Hn) as Hlt.
      pose proof (check_timeouts_visit_progress is_idle iter n s Hn) as Hp.
      unfold bind.
      destruct (check_timeouts_visit is_idle iter n s) as [next s'|];
        [|reflexivity].
      apply IH; lia.
Qed.

(** ** Pause and promotion *)

Lemma perm_insert_sorted (q : list notification) (x : notification) :
  Permutation (g_queue_insert_sorted notification_cmp_data q x) (x :: q).
Proof.
  induction q as [|a q IH]; simpl; [reflexivity|].
  destruct (_ <? 0); [|reflexivity].
  rewrite IH. apply perm_swap.
Qed.

Lemma perm_fold_insert_sorted (d w : list notification) :
  Permutation
    (fold_left (g_queue_insert_sorted notification_cmp_data) d w) (w ++ d).
Proof.
  revert w. induction d as [|n d IH]; intros w; simpl.
  - rewrite app_nil_r. reflexivity.
  - rewrite IH, perm_insert_sorted. simpl. apply Permutation_middle.
Qed.

Lemma in_insert_sorted_old (q : list notification) (x n : notification) :
  In n q -> In n (g_queue_insert_sorted notification_cmp_data q x).
Proof.
  intros Hn. apply (Permutation_in n (Permutation_sym (perm_insert_sorted q x))).
  right. exact Hn.
Qed.

Lemma in_delete_other {A} (q : list A) (i : nat) (n m : A) :
  In n q -> q !! i = Some m -> n <> m -> In n (delete i q).
Proof.
  revert i. induction q as [|a q IH]; intros [|i] Hn Hm Hne;
    try discriminate.
  - simpl in Hm. injection Hm as ->. destruct Hn as [Hn | Hn];
      [congruence | exact Hn].
  - destruct Hn as [Hn | Hn]; [left; exact Hn|].
    right. apply (IH i); assumption.
Qed.

Lemma Forall2_stamped_in (l1 l2 : list notification) (n : notification) :
  Forall2 stamped l1 l2 -> In n l1 ->
  exists p, stamped n p /\ In p l2.
Proof.
  intros H. induction H as [|a b l1 l2 Hab _ IH]; intros Hn; [destruct Hn|].
  destruct Hn as [<- | Hn].
  - exists b. split; [assumption | left; reflexivity].
  - destruct (IH Hn) as (p & Hp & Hin). exists p.
    split; [assumption | right; assumption].
Qed.

(** With fullscreen inactive the promotion loop takes notifications from
    the head of [waiting], in order, until [displayed] is full. *)
Lemma promote_loop_no_fullscreen (fuel : nat) :
  forall s,
    (length (waiting s) <= fuel)%nat ->
    exists s' promoted,
      update_promote_loop false fuel O s = Returns tt s'
      /\ waiting s' = drop (length promoted) (waiting s)
      /\ Forall2 stamped (take (length promoted) (waiting s)) promoted
      /\ Permutation (displayed s') (displayed s ++ promoted)
      /\ length promoted = promote_count s
      /\ pause_displayed s' = pause_displayed s.
Proof.
  induction fuel as [|fuel IH]; intros s Hlen.
  - exists s, []. destruct (waiting s) eqn:Hw; [|simpl in Hlen; lia].
    unfold promote_count. rewrite Hw, app_nil_r. simpl.
    repeat split; try reflexivity; try constructor.
    destruct (displayed_limit s <=? 0); reflexivity.
  - rewrite update_promote_loop_unfold.
    destruct (waiting s) as [|n w] eqn:Hw.
    + exists s, []. unfold promote_count. rewrite Hw, app_nil_r. simpl.
      repeat split; try reflexivity; try constructor.
      destruct (displayed_limit s <=? 0); reflexivity.
    + change ((n :: w) !! O) with (Some n).
      change (held_back false n) with false. cbv iota.
      destruct (displayed_full s) eqn:Hfull.
      * exists s, []. rewrite Hw, app_nil_r. simpl.
        repeat split; try reflexivity; try constructor.
        unfold displayed_full in Hfull. unfold promote_count. rewrite Hw.
        destruct (Z.gtb_spec (displayed_limit s) 0);
          destruct (Z.geb_spec (Z.of_nat (length (displayed s)))
                      (displayed_limit s));
          try discriminate.
        destruct (Z.leb_spec (displayed_limit s) 0); cbn [length]; lia.
      * destruct (promote_step_queues s O n)
          as (Sw & Sd & Sl & Sp & _).
        rewrite Hw in Sw. change (delete O (n :: w)) with w in Sw.
        destruct (IH (promote_step s O n)) as
          (s' & promoted & Hrun & Hw' & Hst & Hperm & Hcount & Hp);
          [rewrite Sw; simpl in Hlen; lia|].
        exists s', (set_start n (clock (clock_reads s)) :: promoted).
        split; [exact Hrun|]. rewrite Sw in Hw', Hst. simpl.
        split; [exact Hw'|].
        split; [constructor; [eexists; reflexivity | exact Hst]|].
        split.
        { rewrite Hperm, Sd, perm_insert_sorted. simpl.
          apply Permutation_middle. }
        split; [|congruence].
        rewrite Hcount. unfold promote_count. rewrite Sl, Sd, Sw, Hw.
        rewrite length_insert_sorted. cbn [length].
        unfold displayed_full in Hfull.
        destruct (Z.gtb_spec (displayed_limit s) 0);
          destruct (Z.geb_spec (Z.of_nat (length (displayed s)))
                      (displayed_limit s));
          try discriminate;
          destruct (Z.leb_spec (displayed_limit s) 0); lia.
Qed.

Lemma update_keeps_held_back (s : queues) :
  pause_displayed s = false ->
  exists s',
    queues_update true s = Returns tt s'
    /\ forall n, In n (waiting s) -> held_back true n = true ->
                 In n (waiting s').
Proof.
  intros Hp. rewrite queues_update_unfold, Hp.
  set (P := fun st : queues =>
              forall n, In n (waiting s) -> held_back true n = true ->
                        In n (waiting st)).
  destruct (update_pushback_loop_inv P) with
    (fuel := length (displayed s)) (iter := O) (s := s)
    as (s1 & -> & H1).
  { intros st iter m HP _ _ n Hn Hh. simpl.
    apply in_insert_sorted_old. apply HP; assumption. }
  { intros n Hn _. exact Hn. }
  apply (update_promote_loop_inv true P); [|exact H1].
  intros st iter m HP Hm _ Hfree n Hn Hh.
  destruct (promote_step_queues st iter m) as (-> & _).
  apply (in_delete_other _ iter n m); [apply HP; assumption | exact Hm|].
  intros ->. congruence.
Qed.

(** C9, amended.  While the pause flag is set, [queues_update] moves
    every displayed notification to its sorted position in [waiting],
    leaves [displayed] empty and promotes nothing, so the length of
    [displayed] never grows.  Once the flag is cleared, an update with
    fullscreen inactive promotes from the head of [waiting], in order,
    as many notifications as the limit of [displayed] admits, all of
    them when there is no limit: the notifications that were displayed
    come back.  An update with fullscreen active leaves every
    notification of mode DELAY or PUSHBACK in [waiting]. *)
Theorem update_pause_semantics (s : queues) (fs : bool) :
  (pause_displayed s = true ->
   let w' := fold_left (g_queue_insert_sorted notification_cmp_data)
               (displayed s) (waiting s) in
   queues_update fs s = Returns tt (set_waiting (set_displayed s []) w')
   /\ Permutation w' (waiting s ++ displayed s)
   /\ (cmp_total -> queue_sorted (waiting s) = true ->
       queue_sorted w' = true)
   /\ (length (displayed (exec (queues_update fs) s))
       <= length (displayed s))%nat)
  /\ (pause_displayed s = false ->
      exists s' promoted,
        queues_update false s = Returns tt s'
        /\ waiting s' = drop (length promoted) (waiting s)
        /\ Forall2 stamped (take (length promoted) (waiting s)) promoted
        /\ Permutation (displayed s') (displayed s ++ promoted)
        /\ length promoted = promote_count s)
  /\ (pause_displayed s = false ->
      exists s',
        queues_update true s = Returns tt s'
        /\ forall n, In n (waiting s) -> held_back true n = true ->
                     In n (waiting s'))
  /\ (pause_displayed s = true -> displayed_limit s <= 0 ->
      exists s3,
        (queues_update fs ;; queues_pause_off ;; queues_update false) s
        = Returns tt s3
        /\ waiting s3 = []
        /\ forall n, In n (displayed s) ->
                     exists p, stamped n p /\ In p (displayed s3)).
Proof.
  assert (Hpaused : pause_displayed s = true ->
            queues_update fs s
            = Returns tt
                (set_waiting (set_displayed s [])
                   (fold_left (g_queue_insert_sorted notification_cmp_data)
                      (displayed s) (waiting s)))).
  { intros Hp. rewrite queues_update_unfold, Hp.
    apply update_paused_loop_spec. reflexivity. }
  split; [|split; [|split]].
  - intros Hp w'. split; [apply Hpaused; exact Hp|].
    split; [apply perm_fold_insert_sorted|].
    split; [intros Htot Hw; apply fold_insert_sorted_sorted; assumption|].
    unfold exec. rewrite (Hpaused Hp). simpl. lia.
  - intros Hp. rewrite queues_update_unfold, Hp.
    destruct (promote_loop_no_fullscreen (length (waiting s)) s)
      as (s' & promoted & Hrun & Hw & Hst & Hperm & Hcount & _);
      [reflexivity|].
    exists s', promoted. auto.
  - apply update_keeps_held_back.
  - intros Hp Hlim. unfold bind. rewrite (Hpaused Hp).
    unfold queues_pause_off, modify.
    rewrite queues_update_unfold. simpl.
    match goal with
    | |- context [update_promote_loop false ?f O ?st] =>
        destruct (promote_loop_no_fullscreen f st)
          as (s3 & promoted & Hrun & Hw & Hst & Hperm & Hcount & _);
          [reflexivity|]
    end.
    exists s3. split; [exact Hrun|].
    unfold promote_count in Hcount. simpl in Hcount, Hw, Hst, Hperm.
    replace (displayed_limit s <=? 0) with true in Hcount by lia.
    rewrite Hcount in Hw, Hst. rewrite drop_all in Hw.
    rewrite firstn_all in Hst.
    split; [exact Hw|]. intros n Hn.
    destruct (Forall2_stamped_in _ _ n Hst) as (p & Hp' & Hin).
    { apply (Permutation_in n
               (Permutation_sym (perm_fold_insert_sorted _ _))).
      apply in_or_app. right. exact Hn. }
    exists p. split; [exact Hp'|].
    apply (Permutation_in p (Permutation_sym Hperm)). exact Hin.
Qed.

(** ** The scan visits every displayed notification once *)

Lemma find_link_before {A} (p : A -> bool) (pre : list A) (x : A)
    (rest : list A) :
  p x = true ->
  exists j y,
    find_link p (pre ++ x :: rest) = Some (j, y) /\ (j <= length pre)%nat.
Proof.
  intros Hx. induction pre as [|a pre IH]; simpl.
  - rewrite Hx. exists O, x. auto.
  - destruct (p a); [exists O, a; split; [reflexivity | lia]|].
    destruct IH as (j & y & -> & Hj). exists (S j), y.
    split; [reflexivity | lia].
Qed.

Lemma delete_app_left {A} (l1 l2 : list A) (j : nat) :
  (j < length l1)%nat ->
  delete j (l1 ++ l2) = delete j l1 ++ l2
  /\ S (length (delete j l1)) = length l1.
Proof.
  revert j. induction l1 as [|a l1 IH]; intros j Hj; [simpl in Hj; lia|].
  destruct j as [|j]; [split; reflexivity|].
  simpl in Hj. destruct (IH j) as [H1 H2]; [lia|].
  simpl. rewrite H1. split; [reflexivity | simpl; lia].
Qed.

(** A pass leaves the links after the cursor as they are, and returns the
    cursor on the first of them. *)
Lemma check_timeouts_visit_suffix (is_idle : bool) (s : queues)
    (pre todo : list notification) (n : notification) :
  displayed s = pre ++ n :: todo ->
  match check_timeouts_visit is_idle (length pre) n s with
  | Returns next s' =>
      exists pre', displayed s' = pre' ++ todo /\ length pre' = next
  | AssertFailed => True
  end.
Proof.
  intros Hd.
  assert (Hstay : exists pre', pre ++ n :: todo = pre' ++ todo
                               /\ length pre' = S (length pre)).
  { exists (pre ++ [n]). rewrite <- app_assoc, length_app. simpl.
    split; [reflexivity | lia]. }
  unfold check_timeouts_visit.
  destruct (is_idle && negb (transient n)).
  - unfold bind, time_monotonic_now, modify, ret. simpl.
    rewrite Hd, insert_middle.
    exists (pre ++ [set_start n (clock (clock_reads s))]).
    rewrite <- app_assoc, length_app. simpl. split; [reflexivity | lia].
  - destruct ((start n =? 0) || (timeout n =? 0));
      [unfold ret; rewrite Hd; exact Hstay|].
    unfold bind at 1. unfold time_monotonic_now.
    destruct (_ >? _); [|unfold ret; simpl; rewrite Hd; exact Hstay].
    unfold bind, queues_notification_close, queues_notification_close_id,
      bind, get.
    simpl. rewrite Hd.
    destruct (find_link_before (fun m => id m =? id n) pre n todo
                (Z.eqb_refl _)) as (j & y & -> & Hj).
    unfold ret at 1. simpl.
    match goal with
    | |- context [find_link ?p (waiting ?st)] =>
        destruct (find_link p (waiting st)) as [[k z]|]
    end; [exact I|].
    unfold ret at 1.
    destruct (delete_app_left (pre ++ [n]) todo j) as [Hdel Hlen];
      [rewrite length_app; simpl; lia|].
    rewrite length_app in Hlen. simpl in Hlen.
    destruct (redisplayed y); unfold extern, modify, ret; simpl;
      match goal with
      | |- context [queues_history_push ?a ?st] =>
          destruct (history_push_returns st a) as (s' & Hpush & _ & Hd' & _)
      end;
      rewrite Hpush, Hd'; simpl; unfold g_queue_delete_link;
      rewrite Hd; change (pre ++ n :: todo) with (pre ++ [n] ++ todo);
      rewrite app_assoc, Hdel;
      (exists (delete j (pre ++ [n])); split; [reflexivity | lia]).
Qed.

(** The loop of [queues_check_timeouts] makes one pass for every
    notification [displayed] holds from the cursor on, each in the state
    the passes before it left. *)
Lemma check_timeouts_loop_passes (is_idle : bool)
    (todo : list notification) :
  forall fuel pre s,
    displayed s = pre ++ todo ->
    (length todo <= fuel)%nat ->
    check_timeouts_loop is_idle fuel (length pre) s
    = check_timeouts_passes is_idle (length pre) todo s.
Proof.
  induction todo as [|n todo IH]; intros fuel pre s Hd Hfuel.
  - rewrite app_nil_r in Hd.
    destruct fuel as [|fuel]; [reflexivity|]. simpl. unfold bind, get.
    rewrite lookup_past_end by (rewrite Hd; lia). reflexivity.
  - destruct fuel as [|fuel]; [simpl in Hfuel; lia|].
    simpl. unfold bind at 1. unfold get.
    rewrite Hd, lookup_middle.
    pose proof (check_timeouts_visit_suffix is_idle s pre todo n Hd) as Hs.
    unfold bind.
    destruct (check_timeouts_visit is_idle (length pre) n s)
      as [next s'|]; [|reflexivity].
    destruct Hs as (pre' & Hd' & <-).
    apply IH; [exact Hd' | simpl in Hfuel; lia].
Qed.

(** [queues_check_timeouts] visits the notifications of [displayed], from
    the head on. *)
Lemma check_timeouts_scans_displayed (idle fs : bool) (s : queues) :
  queues_check_timeouts idle fs s
  = check_timeouts_passes (effective_idle idle fs) O (displayed s) s.
Proof.
  unfold queues_check_timeouts, bind, get.
  destruct (displayed s) as [|n d] eqn:Hd; [reflexivity|].
  change (length (n :: d) =? 0)%nat with false. cbv iota.
  rewrite <- Hd.
  apply (check_timeouts_loop_passes _ (displayed s) _ [] s);
    [reflexivity | lia].
Qed.

(** * Further properties of the functions of queues.c *)

(** ** Closing by identifier, in general *)

Lemma find_link_in {A} (p : A -> bool) (q : list A) (j : nat) (x : A) :
  find_link p q = Some (j, x) -> In x q /\ p x = true.
Proof.
  intros H. apply find_link_some in H.
  destruct H as (pre & post & -> & _ & _ & Hx).
  split; [apply in_or_app; right; left; reflexivity | exact Hx].
Qed.

Lemma find_link_none_in {A} (p : A -> bool) (q : list A) (x : A) :
  find_link p q = None -> In x q -> p x = false.
Proof.
  intros H Hx. apply find_link_none_inv in H.
  induction H as [|y q Hy _ IH]; [destruct Hx|].
  destruct Hx as [<- | Hx]; [exact Hy | apply IH; exact Hx].
Qed.

Lemma eqb_false_id_free (i : Z) (q : list notification) :
  Forall (fun o => (id o =? i) = false) q -> id_free i q.
Proof.
  unfold id_free. intros H.
  induction H as [|o q Ho _ IH]; constructor; [apply Z.eqb_neq|]; assumption.
Qed.

(** The four ways through [queues_notification_close_id], by what the two
    scans find. *)
Lemma close_id_cases (s : queues) (i reason : Z) :
  queues_notification_close_id i reason s
  = match find_link (fun n => id n =? i) (displayed s),
          find_link (fun n => id n =? i) (waiting s) with
    | Some (j, n), None =>
        queues_history_push n
          (unlinked_displayed n reason (delete j (displayed s)) s)
    | None, Some (j, n) =>
        queues_history_push n
          (unlinked_waiting n reason (delete j (waiting s)) s)
    | Some _, Some _ => AssertFailed
    | None, None => Returns tt s
    end.
Proof.
  unfold queues_notification_close_id, bind, get.
  destruct (find_link _ (displayed s)) as [[j n]|];
    unfold modify, ret, g_queue_delete_link; simpl;
    destruct (find_link _ (waiting s)) as [[k m]|]; simpl; try reflexivity.
  - unfold unlinked_displayed, extern, modify.
    destruct (redisplayed n); reflexivity.
  - unfold unlinked_waiting, extern, modify.
    destruct (redisplayed m); reflexivity.
Qed.

(** What [queues_history_push] leaves behind: the only calls it makes free
    notifications, and the notification is the new tail of the history
    unless it is excluded from the history. *)
Lemma history_push_effect (s : queues) (n : notification) :
  exists s' freed,
    queues_history_push n s = Returns tt s'
    /\ calls s' = calls s ++ map notification_free freed
    /\ waiting s' = waiting s /\ displayed s' = displayed s
    /\ (history_ignore n = true -> history s' = history s /\ freed = [n])
    /\ (history_ignore n = false ->
        exists kept, history s' = kept ++ [n]
                     /\ (kept = history s \/ kept = tail (history s))).
Proof.
  unfold queues_history_push, bind, get.
  destruct (history_ignore n); simpl.
  - exists (set_calls s (calls s ++ [notification_free n])), [n].
    repeat split; try reflexivity; intros; discriminate.
  - destruct (_ && _).
    + destruct (history s) as [|o h] eqn:Hh; simpl.
      * eexists _, []. split; [reflexivity|]. simpl. rewrite app_nil_r, Hh.
        repeat split; try discriminate.
        intros _. exists []. auto.
      * eexists _, [o]. split; [reflexivity|]. simpl.
        repeat split; try discriminate.
        intros _. exists h. auto.
    + eexists _, []. split; [reflexivity|]. simpl. rewrite app_nil_r.
      repeat split; try discriminate.
      intros _. exists (history s). auto.
Qed.

(** X1.  [queues_notification_close_id] leaves the state as it is exactly
    when no notification of [displayed] or [waiting] has the identifier. *)
Theorem close_id_noop_iff_unknown (s : queues) (i reason : Z) :
  queues_notification_close_id i reason s = Returns tt s
  <-> id_free i (displayed s) /\ id_free i (waiting s).
Proof.
  split; [|intros [Hd Hw]; apply close_id_unknown; assumption].
  rewrite close_id_cases.
  destruct (find_link _ (displayed s)) as [[j n]|] eqn:Hd;
    destruct (find_link _ (waiting s)) as [[k m]|] eqn:Hw; intros Hrun.
  - discriminate.
  - exfalso. apply find_link_some in Hd.
    destruct Hd as (pre & post & Hq & <- & _).
    destruct (history_push_returns
                (unlinked_displayed n reason (delete (length pre) (displayed s)) s)
                n) as (s' & Hpush & _ & Hdisp & _).
    rewrite Hpush in Hrun. injection Hrun as ->.
    assert (Hlen : displayed s = pre ++ post).
    { rewrite Hdisp. unfold unlinked_displayed.
      destruct (redisplayed n); simpl; rewrite Hq; apply delete_middle. }
    rewrite Hq in Hlen. apply (f_equal length) in Hlen.
    rewrite !length_app in Hlen. simpl in Hlen. lia.
  - exfalso. apply find_link_some in Hw.
    destruct Hw as (pre & post & Hq & <- & _).
    destruct (history_push_returns
                (unlinked_waiting m reason (delete (length pre) (waiting s)) s)
                m) as (s' & Hpush & Hwait & _).
    rewrite Hpush in Hrun. injection Hrun as ->.
    assert (Hlen : waiting s = pre ++ post).
    { rewrite Hwait. unfold unlinked_waiting.
      destruct (redisplayed m); simpl; rewrite Hq; apply delete_middle. }
    rewrite Hq in Hlen. apply (f_equal length) in Hlen.
    rewrite !length_app in Hlen. simpl in Hlen. lia.
  - split; apply eqb_false_id_free; apply find_link_none_inv; assumption.
Qed.

(** X2.  [queues_notification_close_id] stops at its assertion exactly
    when the identifier is carried both by a notification of [displayed]
    and by one of [waiting]; in every other state it returns. *)
Theorem close_id_asserts_iff_in_both (s : queues) (i reason : Z) :
  queues_notification_close_id i reason s = AssertFailed
  <-> (exists n, In n (displayed s) /\ id n = i)
      /\ (exists n, In n (waiting s) /\ id n = i).
Proof.
  rewrite close_id_cases.
  destruct (find_link _ (displayed s)) as [[j n]|] eqn:Hd;
    destruct (find_link _ (waiting s)) as [[k m]|] eqn:Hw.
  - split; [intros _|reflexivity].
    apply find_link_in in Hd, Hw. destruct Hd as [Hn Hi], Hw as [Hm Hi'].
    apply Z.eqb_eq in Hi, Hi'. split; [exists n | exists m]; auto.
  - split.
    + destruct (history_push_returns
                  (unlinked_displayed n reason (delete j (displayed s)) s) n)
        as (s' & -> & _). discriminate.
    + intros [_ (x & Hx & Hi)]. exfalso.
      pose proof (find_link_none_in _ _ x Hw Hx) as Hf. simpl in Hf.
      apply Z.eqb_neq in Hf. contradiction.
  - split.
    + destruct (history_push_returns
                  (unlinked_waiting m reason (delete k (waiting s)) s) m)
        as (s' & -> & _). discriminate.
    + intros [(x & Hx & Hi) _]. exfalso.
      pose proof (find_link_none_in _ _ x Hd Hx) as Hf. simpl in Hf.
      apply Z.eqb_neq in Hf. contradiction.
  - split; [discriminate|].
    intros [(x & Hx & Hi) _]. exfalso.
    pose proof (find_link_none_in _ _ x Hd Hx) as Hf. simpl in Hf.
    apply Z.eqb_neq in Hf. contradiction.
Qed.

Lemma unlinked_displayed_fields (n : notification) (reason : Z)
    (rest : list notification) (s : queues) :
  displayed (unlinked_displayed n reason rest s) = rest
  /\ waiting (unlinked_displayed n reason rest s) = waiting s
  /\ history (unlinked_displayed n reason rest s) = history s
  /\ calls (unlinked_displayed n reason rest s)
     = calls s ++ (if redisplayed n then []
                   else [signal_notification_closed n reason]).
Proof.
  unfold unlinked_displayed. destruct (redisplayed n); simpl;
    rewrite ?app_nil_r; auto.
Qed.

Lemma unlinked_waiting_fields (n : notification) (reason : Z)
    (rest : list notification) (s : queues) :
  displayed (unlinked_waiting n reason rest s) = displayed s
  /\ waiting (unlinked_waiting n reason rest s) = rest
  /\ history (unlinked_waiting n reason rest s) = history s
  /\ calls (unlinked_waiting n reason rest s)
     = calls s ++ (if redisplayed n then []
                   else [signal_notification_closed n reason]).
Proof.
  unfold unlinked_waiting. destruct (redisplayed n); simpl;
    rewrite ?app_nil_r; auto.
Qed.

(** X3.  Closing the identifier of a notification [n] that is the only
    one with it (the first in [displayed] with none in [waiting], or the
    first in [waiting] with none in [displayed]) unlinks [n] and leaves
    the other queue alone; observers are told, with the given reason,
    unless [n] had come back from the history; every other call frees a
    notification; and [n] is the new tail of the history, unless it is
    excluded from the history, in which case it is freed. *)
Theorem close_id_archives (s : queues) (reason : Z) (n : notification)
    (pre post : list notification) (in_displayed : bool) :
  id_free (id n) pre ->
  (if in_displayed
   then displayed s = pre ++ n :: post /\ id_free (id n) (waiting s)
   else id_free (id n) (displayed s) /\ waiting s = pre ++ n :: post) ->
  exists s' freed,
    queues_notification_close_id (id n) reason s = Returns tt s'
    /\ displayed s' = (if in_displayed then pre ++ post else displayed s)
    /\ waiting s' = (if in_displayed then waiting s else pre ++ post)
    /\ calls s'
       = calls s
         ++ (if redisplayed n then []
             else [signal_notification_closed n reason])
         ++ map notification_free freed
    /\ (history_ignore n = true -> history s' = history s /\ freed = [n])
    /\ (history_ignore n = false ->
        exists kept, history s' = kept ++ [n]
                     /\ (kept = history s \/ kept = tail (history s))).
Proof.
  intros Hpre Hq. destruct in_displayed; destruct Hq as [H1 H2].
  - rewrite (close_id_in_displayed s reason n pre post H1 Hpre H2).
    destruct (unlinked_displayed_fields n reason (pre ++ post) s)
      as (Ud & Uw & Uh & Uc).
    destruct (history_push_effect
                (unlinked_displayed n reason (pre ++ post) s) n)
      as (s' & freed & Hrun & Hc & Hw & Hd & Hign & Hkeep).
    exists s', freed. rewrite Hc, Hw, Hd, Ud, Uw, Uc, <- app_assoc.
    rewrite Uh in Hign, Hkeep. auto 10.
  - rewrite (close_id_in_waiting s reason n pre post H1 H2 Hpre).
    destruct (unlinked_waiting_fields n reason (pre ++ post) s)
      as (Ud & Uw & Uh & Uc).
    destruct (history_push_effect
                (unlinked_waiting n reason (pre ++ post) s) n)
      as (s' & freed & Hrun & Hc & Hw & Hd & Hign & Hkeep).
    exists s', freed. rewrite Hc, Hw, Hd, Ud, Uw, Uc, <- app_assoc.
    rewrite Uh in Hign, Hkeep. auto 10.
Qed.

(** X4.  [queues_notification_close_id] keeps a history that is within
    [history_length] within it, whenever it returns. *)
Theorem close_id_keeps_history_bound (s : queues) (i reason : Z) :
  0 < history_length settings ->
  Z.of_nat (length (history s)) <= history_length settings ->
  match queues_notification_close_id i reason s with
  | Returns _ s' =>
      Z.of_nat (length (history s')) <= history_length settings
  | AssertFailed => True
  end.
Proof.
  intros Hpos Hlen. rewrite close_id_cases.
  destruct (find_link _ (displayed s)) as [[j n]|];
    destruct (find_link _ (waiting s)) as [[k m]|]; try exact I;
    try exact Hlen.
  - destruct (unlinked_displayed_fields n reason (delete j (displayed s)) s)
      as (_ & _ & Uh & _).
    destruct (history_push_keeps_bound
                (unlinked_displayed n reason (delete j (displayed s)) s) n
                Hpos) as (s' & -> & Hb); [rewrite Uh|]; assumption.
  - destruct (unlinked_waiting_fields m reason (delete k (waiting s)) s)
      as (_ & _ & Uh & _).
    destruct (history_push_keeps_bound
                (unlinked_waiting m reason (delete k (waiting s)) s) m
                Hpos) as (s' & -> & Hb); [rewrite Uh|]; assumption.
Qed.

(** ** Recalling from the history *)

(** X5.  [queues_history_pop] leaves the state as it is exactly when the
    history is empty. *)
Theorem history_pop_noop_iff_empty (s : queues) :
  queues_history_pop s = Returns tt s <-> history s = [].
Proof.
  unfold queues_history_pop, bind, get, modify.
  destruct (history s) as [|o h] eqn:Hh using rev_ind.
  - simpl. split; reflexivity.
  - rewrite pop_tail_snoc. simpl. split.
    + intros Hrun. injection Hrun as Hs. apply (f_equal waiting) in Hs.
      simpl in Hs. apply (f_equal length) in Hs. simpl in Hs. lia.
    + intros Hnil. destruct h; discriminate.
Qed.

(** X6.  A notification pushed to the history and popped at once comes
    back at the head of [waiting], marked as recalled, and the history is
    what the push left without it: the history as it was, or its tail
    when the push evicted the head.  A notification that is excluded from
    the history is freed by the push, and the pop acts on the history as
    it was. *)
Theorem history_push_pop_round_trip (s : queues) (n : notification) :
  (history_ignore n = false ->
   exists s1 kept,
     queues_history_push n s = Returns tt s1
     /\ history s1 = kept ++ [n]
     /\ (kept = history s \/ kept = tail (history s))
     /\ (queues_history_push n ;; queues_history_pop) s
        = Returns tt
            (set_waiting (set_history s1 kept) (recall n :: waiting s)))
  /\ (history_ignore n = true ->
      (queues_history_push n ;; queues_history_pop) s
      = queues_history_pop
          (set_calls s (calls s ++ [notification_free n]))).
Proof.
  split; intros Hi.
  - destruct (history_push_effect s n)
      as (s1 & freed & Hrun & _ & Hw & _ & _ & Hkeep).
    destruct (Hkeep Hi) as (kept & Hh & Hk).
    exists s1, kept. split; [exact Hrun|]. split; [exact Hh|].
    split; [exact Hk|].
    unfold bind at 1. rewrite Hrun.
    unfold queues_history_pop, bind, get, modify.
    rewrite Hh, pop_tail_snoc. simpl. rewrite Hw. reflexivity.
  - unfold bind at 1. rewrite (history_push_ignored s n Hi). reflexivity.
Qed.

(** ** Closing everything *)

(** [queues_history_push] and the report to observers neither read nor
    write [displayed] and [waiting]. *)
Lemma history_push_frame (n : notification) (s : queues)
    (d w : list notification) :
  queues_history_push n (set_waiting (set_displayed s d) w)
  = match queues_history_push n s with
    | Returns _ s' => Returns tt (set_waiting (set_displayed s' d) w)
    | AssertFailed => AssertFailed
    end.
Proof.
  unfold queues_history_push, bind, get.
  destruct (history_ignore n); simpl; [reflexivity|].
  destruct (_ && _); [|reflexivity].
  destruct (history s); reflexivity.
Qed.

Lemma archive_each_frame (reason : Z) (ns : list notification) :
  forall s d w,
    archive_each reason ns (set_waiting (set_displayed s d) w)
    = match archive_each reason ns s with
      | Returns _ s' => Returns tt (set_waiting (set_displayed s' d) w)
      | AssertFailed => AssertFailed
      end.
Proof.
  induction ns as [|n ns IH]; intros s d w; [reflexivity|].
  simpl. unfold bind.
  assert (Hsig : forall st,
            (if negb (redisplayed n)
             then extern (signal_notification_closed n reason)
             else ret tt) (set_waiting (set_displayed st d) w)
            = match (if negb (redisplayed n)
                     then extern (signal_notification_closed n reason)
                     else ret tt) st with
              | Returns _ st' =>
                  Returns tt (set_waiting (set_displayed st' d) w)
              | AssertFailed => AssertFailed
              end).
  { intros st. destruct (redisplayed n); reflexivity. }
  rewrite Hsig.
  destruct ((if negb (redisplayed n)
             then extern (signal_notification_closed n reason)
             else ret tt) s) as [[] s1|]; [|reflexivity].
  rewrite history_push_frame.
  destruct (queues_history_push n s1) as [[] s2|]; [|reflexivity].
  apply IH.
Qed.

Lemma archive_each_returns (reason : Z) (ns : list notification) :
  forall s,
    exists s',
      archive_each reason ns s = Returns tt s'
      /\ waiting s' = waiting s /\ displayed s' = displayed s.
Proof.
  induction ns as [|n ns IH]; intros s.
  - exists s. auto.
  - simpl. unfold bind at 1 2.
    set (s0 := if redisplayed n then s
               else set_calls s
                      (calls s ++ [signal_notification_closed n reason])).
    assert (Hsig : (if negb (redisplayed n)
                    then extern (signal_notification_closed n reason)
                    else ret tt) s = Returns tt s0).
    { unfold s0. destruct (redisplayed n); reflexivity. }
    rewrite Hsig.
    destruct (history_push_returns s0 n) as (s1 & -> & Hw1 & Hd1 & _).
    destruct (IH s1) as (s' & Hrun & Hw & Hd). exists s'.
    split; [exact Hrun|]. rewrite Hw, Hd, Hw1, Hd1.
    unfold s0. destruct (redisplayed n); auto.
Qed.

Lemma archive_each_app (reason : Z) (ns1 ns2 : list notification)
    (s : queues) :
  archive_each reason (ns1 ++ ns2) s
  = match archive_each reason ns1 s with
    | Returns _ s' => archive_each reason ns2 s'
    | AssertFailed => AssertFailed
    end.
Proof.
  revert s. induction ns1 as [|n ns1 IH]; intros s; [reflexivity|].
  simpl. unfold bind.
  destruct ((if negb (redisplayed n)
             then extern (signal_notification_closed n reason)
             else ret tt) s) as [[] s1|]; [|reflexivity].
  destruct (queues_history_push n s1) as [[] s2|]; [|reflexivity].
  apply IH.
Qed.

Lemma set_queues_twice (s : queues) (d w d' w' : list notification) :
  set_waiting (set_displayed (set_waiting (set_displayed s d) w) d') w'
  = set_waiting (set_displayed s d') w'.
Proof. reflexivity. Qed.

Lemma set_queues_same (s : queues) :
  set_waiting (set_displayed s (displayed s)) (waiting s) = s.
Proof. destruct s; reflexivity. Qed.

(** The first loop of [queues_history_push_all]. *)
Lemma close_displayed_heads_spec (d : list notification) :
  forall fuel s,
    displayed s = d ->
    Forall (fun n => id_free (id n) (waiting s)) d ->
    (length d <= fuel)%nat ->
    close_displayed_heads fuel s
    = archive_each REASON_USER d (set_displayed s []).
Proof.
  induction d as [|n d IH]; intros fuel s Hd Hfree Hfuel.
  - destruct fuel; simpl; unfold bind, get; rewrite ?Hd;
      rewrite <- Hd; destruct s; simpl in *; subst; reflexivity.
  - destruct fuel as [|fuel]; [simpl in Hfuel; lia|].
    simpl. unfold bind at 1. unfold get. rewrite Hd.
    unfold bind at 1. unfold queues_notification_close.
    inversion Hfree as [|? ? Hn Hrest]; subst.
    rewrite (close_id_in_displayed s REASON_USER n [] d Hd
               (List.Forall_nil _) Hn).
    simpl app.
    unfold bind at 1 2.
    assert (Hsig : (if negb (redisplayed n)
                    then extern (signal_notification_closed n REASON_USER)
                    else ret tt) (set_displayed s [])
                   = Returns tt (unlinked_displayed n REASON_USER [] s)).
    { unfold unlinked_displayed. destruct (redisplayed n); reflexivity. }
    rewrite Hsig.
    assert (Hun : unlinked_displayed n REASON_USER d s
                  = set_waiting
                      (set_displayed (unlinked_displayed n REASON_USER [] s) d)
                      (waiting (unlinked_displayed n REASON_USER [] s))).
    { unfold unlinked_displayed. destruct (redisplayed n); destruct s;
        reflexivity. }
    rewrite Hun, history_push_frame.
    destruct (history_push_returns (unlinked_displayed n REASON_USER [] s) n)
      as (s1 & Hpush & Hw1 & Hd1 & _).
    rewrite Hpush.
    assert (Hw0 : waiting (unlinked_displayed n REASON_USER [] s) = waiting s).
    { unfold unlinked_displayed. destruct (redisplayed n); reflexivity. }
    rewrite (IH fuel); [| reflexivity | simpl; rewrite Hw0; exact Hrest
                       | simpl in Hfuel; lia].
    assert (Hs1 : set_displayed
                    (set_waiting (set_displayed s1 d)
                       (waiting (unlinked_displayed n REASON_USER [] s))) []
                  = s1).
    { rewrite <- (set_queues_same s1) at 2. rewrite Hw1, Hd1.
      unfold unlinked_displayed. destruct (redisplayed n); destruct s1;
        reflexivity. }
    rewrite Hs1. reflexivity.
Qed.

(** The second loop of [queues_history_push_all], entered with
    [displayed] empty. *)
Lemma close_waiting_heads_spec (w : list notification) :
  forall fuel s,
    displayed s = [] ->
    waiting s = w ->
    (length w <= fuel)%nat ->
    close_waiting_heads fuel s
    = archive_each REASON_USER w (set_waiting s []).
Proof.
  induction w as [|n w IH]; intros fuel s Hd Hw Hfuel.
  - destruct fuel; simpl; unfold bind, get; rewrite ?Hw;
      rewrite <- Hw; destruct s; simpl in *; subst; reflexivity.
  - destruct fuel as [|fuel]; [simpl in Hfuel; lia|].
    simpl. unfold bind at 1. unfold get. rewrite Hw.
    unfold bind at 1. unfold queues_notification_close.
    rewrite (close_id_in_waiting s REASON_USER n [] w);
      [| rewrite Hd; constructor | exact Hw | constructor].
    simpl app.
    unfold bind at 1 2.
    assert (Hsig : (if negb (redisplayed n)
                    then extern (signal_notification_closed n REASON_USER)
                    else ret tt) (set_waiting s [])
                   = Returns tt (unlinked_waiting n REASON_USER [] s)).
    { unfold unlinked_waiting. destruct (redisplayed n); reflexivity. }
    rewrite Hsig.
    assert (Hun : unlinked_waiting n REASON_USER w s
                  = set_waiting
                      (set_displayed (unlinked_waiting n REASON_USER [] s)
                         (displayed (unlinked_waiting n REASON_USER [] s)))
                      w).
    { unfold unlinked_waiting. destruct (redisplayed n); destruct s;
        reflexivity. }
    rewrite Hun, history_push_frame.
    destruct (history_push_returns (unlinked_waiting n REASON_USER [] s) n)
      as (s1 & Hpush & Hw1 & Hd1 & _).
    rewrite Hpush.
    assert (Hd0 : displayed (unlinked_waiting n REASON_USER [] s) = []).
    { unfold unlinked_waiting. destruct (redisplayed n); simpl; exact Hd. }
    rewrite (IH fuel); [| simpl; exact Hd0 | reflexivity
                       | simpl in Hfuel; lia].
    assert (Hs1 : set_waiting
                    (set_waiting
                       (set_displayed s1
                          (displayed (unlinked_waiting n REASON_USER [] s)))
                       w) []
                  = s1).
    { rewrite <- (set_queues_same s1) at 2. rewrite Hw1, Hd1, Hd0.
      unfold unlinked_waiting. destruct (redisplayed n); destruct s1;
        reflexivity. }
    rewrite Hs1. reflexivity.
Qed.

(** X7.  When no notification of [waiting] has the identifier of a
    displayed one, [queues_history_push_all] returns with [displayed] and
    [waiting] empty, having closed with [REASON_USER] every displayed
    notification, from the head on, and then every waiting one: it does
    for each what a close does for a notification it has unlinked. *)
Theorem history_push_all_archives (s : queues) :
  Forall (fun n => id_free (id n) (waiting s)) (displayed s) ->
  exists s',
    queues_history_push_all s = Returns tt s'
    /\ archive_each REASON_USER (displayed s ++ waiting s)
         (set_waiting (set_displayed s []) [])
       = Returns tt s'
    /\ displayed s' = [] /\ waiting s' = [].
Proof.
  intros Hfree.
  destruct (archive_each_returns REASON_USER (displayed s)
              (set_displayed s [])) as (s1 & Hrun1 & Hw1 & Hd1).
  destruct (archive_each_returns REASON_USER (waiting s)
              (set_waiting s1 [])) as (s2 & Hrun2 & Hw2 & Hd2).
  exists s2. simpl in Hw1, Hd1, Hw2, Hd2.
  split; [|split; [|split; [rewrite Hd2, Hd1 | rewrite Hw2]; reflexivity]].
  - unfold queues_history_push_all, bind, get.
    rewrite (close_displayed_heads_spec (displayed s) _ s eq_refl Hfree)
      by reflexivity.
    rewrite Hrun1.
    rewrite (close_waiting_heads_spec (waiting s1) _ s1 Hd1 eq_refl)
      by reflexivity.
    rewrite Hw1. exact Hrun2.
  - rewrite archive_each_app.
    replace (set_waiting (set_displayed s []) [])
      with (set_waiting (set_displayed (set_displayed s []) []) [])
      by reflexivity.
    rewrite archive_each_frame, Hrun1.
    replace (set_waiting (set_displayed s1 []) []) with (set_waiting s1 [])
      by (rewrite <- Hd1; destruct s1; reflexivity).
    exact Hrun2.
Qed.

(** ** The next wake-up, for any queue *)

Lemma MIN_le (a b : Z) : MIN a b <= a /\ MIN a b <= b.
Proof. unfold MIN. destruct (Z.ltb_spec a b); lia. Qed.

Lemma MIN_cases (a b : Z) : MIN a b = a \/ MIN a b = b.
Proof. unfold MIN. destruct (a <? b); auto. Qed.

Lemma wrap64_range (z : Z) : in_gint64 (wrap 64 z).
Proof.
  unfold in_gint64, G_MININT64, G_MAXINT64, wrap.
  change (2 ^ (64 - 1)) with 9223372036854775808.
  change (2 ^ 63) with 9223372036854775808.
  change (2 ^ 64) with 18446744073709551616.
  pose proof (Z.mod_pos_bound (z + 9223372036854775808)
                18446744073709551616 eq_refl). lia.
Qed.

Lemma next_datachange_visit_none (time : Z) (n : notification) (sleep : Z) :
  next_datachange_visit time n sleep = None <-> timed_out time n.
Proof.
  unfold next_datachange_visit, timed_out. fold (ttl time n).
  destruct (Z.gtb_spec (timeout n) 0);
    [destruct (Z.gtb_spec (ttl time n) 0)|];
    split; try discriminate; try reflexivity; lia.
Qed.

Lemma next_datachange_visit_some (time : Z) (n : notification)
    (sleep sleep' : Z) :
  next_datachange_visit time n sleep = Some sleep' ->
  sleep' <= sleep
  /\ (0 < timeout n -> 0 < ttl time n /\ sleep' <= ttl time n)
  /\ (0 <= sleep -> 0 <= sleep')
  /\ (show_age_threshold settings < 0 -> 0 < sleep -> 0 < sleep')
  /\ (show_age_threshold settings < 0 -> timeout n <= 0 -> sleep' = sleep).
Proof.
  unfold next_datachange_visit. fold (ttl time n).
  set (age := gint64_sub time (timestamp n)).
  pose proof (MIN_le sleep (ttl time n)) as [M1 M2].
  pose proof (MIN_cases sleep (ttl time n)) as M3.
  assert (Hbound : forall base,
            (if show_age_threshold settings >=? 0 then
               if age >? show_age_threshold settings then
                 MIN base (gint64_sub G_USEC_PER_SEC (Z.rem age G_USEC_PER_SEC))
               else if (timeout n =? 0)
                       || (ttl time n >? show_age_threshold settings)
                    then MIN base (show_age_threshold settings)
                    else base
             else base) <= base
            /\ (0 <= base ->
                0 <= (if show_age_threshold settings >=? 0 then
                        if age >? show_age_threshold settings then
                          MIN base
                            (gint64_sub G_USEC_PER_SEC
                               (Z.rem age G_USEC_PER_SEC))
                        else if (timeout n =? 0)
                                || (ttl time n >? show_age_threshold settings)
                             then MIN base (show_age_threshold settings)
                             else base
                      else base))
            /\ (show_age_threshold settings < 0 ->
                (if show_age_threshold settings >=? 0 then
                   if age >? show_age_threshold settings then
                     MIN base
                       (gint64_sub G_USEC_PER_SEC (Z.rem age G_USEC_PER_SEC))
                   else if (timeout n =? 0)
                           || (ttl time n >? show_age_threshold settings)
                        then MIN base (show_age_threshold settings)
                        else base
                 else base) = base)).
  { intros base.
    destruct (Z.geb_spec (show_age_threshold settings) 0) as [Hth | Hth];
      [|repeat split; lia].
    destruct (Z.gtb_spec age (show_age_threshold settings)) as [Ha | Ha].
    - assert (Hrem : 0 <= Z.rem age G_USEC_PER_SEC < G_USEC_PER_SEC).
      { apply Z.rem_bound_pos; unfold G_USEC_PER_SEC; lia. }
      assert (Hsub : gint64_sub G_USEC_PER_SEC (Z.rem age G_USEC_PER_SEC)
                     = G_USEC_PER_SEC - Z.rem age G_USEC_PER_SEC).
      { apply wrap64_in_range.
        unfold in_gint64, G_MININT64, G_MAXINT64, G_USEC_PER_SEC in *.
        change (2 ^ 63) with 9223372036854775808. lia. }
      rewrite Hsub.
      pose proof (MIN_le base (G_USEC_PER_SEC - Z.rem age G_USEC_PER_SEC))
        as [N1 N2].
      pose proof (MIN_cases base (G_USEC_PER_SEC - Z.rem age G_USEC_PER_SEC))
        as N3.
      repeat split; lia.
    - pose proof (MIN_le base (show_age_threshold settings)) as [N1 N2].
      pose proof (MIN_cases base (show_age_threshold settings)) as N3.
      destruct ((timeout n =? 0)
                || (ttl time n >? show_age_threshold settings));
        repeat split; lia. }
  destruct (Z.gtb_spec (timeout n) 0) as [Ht | Ht].
  - destruct (Z.gtb_spec (ttl time n) 0) as [Hl | Hl]; [|discriminate].
    intros H. injection H as <-.
    destruct (Hbound (MIN sleep (ttl time n))) as (B1 & B2 & B3).
    repeat split; try lia.
  - intros H. injection H as <-.
    destruct (Hbound sleep) as (B1 & B2 & B3).
    repeat split; lia.
Qed.

Lemma next_datachange_loop_bounds (time : Z) (q : list notification) :
  forall sleep,
    next_datachange_loop time q sleep <= Z.max 0 sleep
    /\ (0 <= sleep -> -1 <= next_datachange_loop time q sleep).
Proof.
  induction q as [|n q IH]; intros sleep; simpl.
  - destruct (Z.eqb_spec sleep G_MAXINT64); simpl; lia.
  - destruct (next_datachange_visit time n sleep) as [sleep'|] eqn:Hv; [|lia].
    apply next_datachange_visit_some in Hv.
    destruct Hv as (H1 & _ & H3 & _). destruct (IH sleep') as [I1 I2].
    split; [lia | intros H0; apply I2; auto].
Qed.


(** X9.  [queues_get_next_datachange] asks for an immediate wake-up
    whenever the timeout of a displayed notification has run out; with
    the age threshold disabled it returns 0 in no other case. *)
Theorem next_datachange_zero_iff_timed_out (time : Z) (s : queues) :
  ((exists n, In n (displayed s) /\ timed_out time n) ->
   queues_get_next_datachange time s = 0)
  /\ (show_age_threshold settings < 0 ->
      queues_get_next_datachange time s = 0 ->
      exists n, In n (displayed s) /\ timed_out time n).
Proof.
  unfold queues_get_next_datachange. split.
  - generalize G_MAXINT64 as sleep.
    induction (displayed s) as [|m q IH]; intros sleep (n & Hin & Hn);
      [destruct Hin|].
    simpl. destruct (next_datachange_visit time m sleep) as [sleep'|] eqn:Hv;
      [|reflexivity].
    destruct Hin as [-> | Hin].
    + apply (next_datachange_visit_none time n sleep) in Hn. congruence.
    + apply IH. exists n. auto.
  - intros Hth.
    assert (Hpos : 0 < G_MAXINT64) by reflexivity.
    revert Hpos. generalize G_MAXINT64 as sleep.
    induction (displayed s) as [|m q IH]; intros sleep Hpos; simpl.
    + destruct (Z.eqb_spec sleep G_MAXINT64); simpl; intros H; lia.
    + destruct (next_datachange_visit time m sleep) as [sleep'|] eqn:Hv.
      * intros H0. apply next_datachange_visit_some in Hv.
        destruct Hv as (_ & _ & _ & H4 & _).
        destruct (IH sleep' (H4 Hth Hpos) H0) as (n & Hin & Hn).
        exists n. auto.
      * intros _. exists m. split; [left; reflexivity|].
        apply (next_datachange_visit_none time m sleep). exact Hv.
Qed.

(** X10.  The result of [queues_get_next_datachange] is -1 or a delay
    that is not negative; with the age threshold disabled it is -1, "no
    wake-up needed", when no displayed notification has a timeout. *)
Theorem next_datachange_range (time : Z) (s : queues) :
  -1 <= queues_get_next_datachange time s
  /\ (show_age_threshold settings < 0 ->
      Forall (fun n => timeout n <= 0) (displayed s) ->
      queues_get_next_datachange time s = -1).
Proof.
  unfold queues_get_next_datachange. split.
  - apply next_datachange_loop_bounds. unfold G_MAXINT64. lia.
  - intros Hth Hall.
    induction Hall as [|n q Hn _ IH]; simpl; [reflexivity|].
    destruct (next_datachange_visit time n G_MAXINT64) as [sleep'|] eqn:Hv.
    + apply next_datachange_visit_some in Hv.
      destruct Hv as (_ & _ & _ & _ & H5). rewrite (H5 Hth Hn). exact IH.
    + apply next_datachange_visit_none in Hv. destruct Hv as [Hpos _]. lia.
Qed.

(** ** What an update keeps *)


Lemma displayed_full_false (s : queues) :
  displayed_full s = false -> 0 < displayed_limit s ->
  Z.of_nat (length (displayed s)) < displayed_limit s.
Proof.
  unfold displayed_full. intros H Hpos.
  destruct (Z.gtb_spec (displayed_limit s) 0);
    destruct (Z.geb_spec (Z.of_nat (length (displayed s)))
                (displayed_limit s)); try discriminate; lia.
Qed.

(** X11.  With a limit set, [queues_update] never leaves more
    notifications in [displayed] than the limit, unless there were more
    before, and then no more than there were; the limit itself is left
    alone. *)
Theorem update_respects_limit (fs : bool) (s : queues) :
  0 < displayed_limit s ->
  exists s',
    queues_update fs s = Returns tt s'
    /\ displayed_limit s' = displayed_limit s
    /\ Z.of_nat (length (displayed s'))
       <= Z.max (displayed_limit s) (Z.of_nat (length (displayed s))).
Proof.
  intros Hpos. rewrite queues_update_unfold.
  destruct (pause_displayed s).
  - rewrite update_paused_loop_spec by reflexivity.
    eexists. split; [reflexivity|]. simpl. split; [reflexivity | lia].
  - set (P := fun st : queues =>
                displayed_limit st = displayed_limit s
                /\ Z.of_nat (length (displayed st))
                   <= Z.max (displayed_limit s)
                        (Z.of_nat (length (displayed s)))).
    assert (Hpush : exists s1,
               (if fs then update_pushback_loop (length (displayed s)) O s
                else Returns tt s) = Returns tt s1 /\ P s1).
    { destruct fs; [|exists s; split; [reflexivity | split; [reflexivity | lia]]].
      apply (update_pushback_loop_inv P); [|split; [reflexivity | lia]].
      intros st iter n [Hl Hb] Hn _. split; [exact Hl|]. simpl.
      pose proof (length_delete_in_range _ _ _ Hn). lia. }
    destruct Hpush as (s1 & -> & H1).
    apply (update_promote_loop_inv fs P); [|exact H1].
    intros st iter n [Hl Hb] _ Hfull _.
    destruct (promote_step_queues st iter n) as (_ & Sd & Sl & _).
    split; [congruence|]. rewrite Sd, length_insert_sorted.
    pose proof (displayed_full_false st Hfull). lia.
Qed.



(** ** What an insertion changes *)

Lemma find_link_existsb {A} (p : A -> bool) (q : list A) :
  existsb p q = match find_link p q with Some _ => true | None => false end.
Proof.
  induction q as [|x q IH]; simpl; [reflexivity|].
  destruct (p x); simpl; [reflexivity|]. rewrite IH.
  destruct (find_link p q) as [[j y]|]; reflexivity.
Qed.

Lemma replace_id_shape (s : queues) (new : notification) :
  exists new' s',
    queues_notification_replace_id new s
    = Returns (existsb (fun o => id o =? id new) (displayed s ++ waiting s),
               new') s'
    /\ id new' = id new
    /\ length (displayed s') = length (displayed s)
    /\ length (waiting s') = length (waiting s)
    /\ history s' = history s
    /\ next_notification_id s' = next_notification_id s.
Proof.
  unfold queues_notification_replace_id, bind, get.
  rewrite existsb_app, !find_link_existsb.
  destruct (find_link _ (displayed s)) as [[i old]|].
  - eexists _, _. split; [reflexivity|]. simpl.
    rewrite length_insert. auto.
  - destruct (find_link _ (waiting s)) as [[i old]|].
    + eexists _, _. split; [reflexivity|]. simpl.
      rewrite length_insert. auto.
    + eexists _, _. split; [reflexivity|]. auto.
Qed.

Lemma stack_duplicate_shape (s : queues) (n : notification) :
  exists n' s',
    queues_stack_duplicate n s
    = Returns (existsb (fun o => notification_is_duplicate o n)
                 (displayed s ++ waiting s), n') s'
    /\ id n' = id n
    /\ length (displayed s') = length (displayed s)
    /\ length (waiting s') = length (waiting s)
    /\ history s' = history s
    /\ next_notification_id s' = next_notification_id s.
Proof.
  unfold queues_stack_duplicate, bind, get.
  rewrite existsb_app, !find_link_existsb.
  destruct (find_link _ (displayed s)) as [[i old]|].
  - eexists _, _. split; [reflexivity|]. simpl.
    rewrite length_insert. auto.
  - destruct (find_link _ (waiting s)) as [[i old]|].
    + eexists _, _. split; [reflexivity|]. simpl.
      rewrite length_insert. auto.
    + eexists _, _. split; [reflexivity|]. auto.
Qed.

Lemma printed_fields (n : notification) (s : queues) :
  history (printed n s) = history s
  /\ next_notification_id (printed n s) = next_notification_id s.
Proof. unfold printed. destruct (print_notifications settings); auto. Qed.

(** The result and the bookkeeping of [queues_notification_insert], in
    every case. *)
Lemma insert_shape (s : queues) (n : notification) :
  exists r s',
    queues_notification_insert n s = Returns r s'
    /\ r = (if discarded n then 0
            else if id n =? 0 then int_add (next_notification_id s) 1
                 else id n)
    /\ next_notification_id s'
       = (if discarded n || negb (id n =? 0) then next_notification_id s
          else int_add (next_notification_id s) 1)
    /\ length (displayed s') = length (displayed s)
    /\ length (waiting s')
       = (length (waiting s)
          + (if discarded n || takes_slot n s then 0 else 1))%nat
    /\ history s' = history s.
Proof.
  destruct (discarded n) eqn:Hdis.
  - unfold discarded, is_command in Hdis.
    unfold queues_notification_insert.
    destruct (String.eqb (msg n) "").
    + unfold bind, extern, modify, ret.
      destruct (always_run_script settings);
        (eexists _, _; split; [reflexivity|]; simpl; repeat split; lia).
    + destruct (String.eqb "DUNST_COMMAND_PAUSE" (summary n));
        [eexists _, _; split; [reflexivity|]; simpl; repeat split; lia|].
      destruct (String.eqb "DUNST_COMMAND_RESUME" (summary n));
        [eexists _, _; split; [reflexivity|]; simpl; repeat split; lia|].
      destruct (String.eqb "DUNST_COMMAND_TOGGLE" (summary n));
        [eexists _, _; split; [reflexivity|]; simpl; repeat split; lia|].
      discriminate.
  - unfold takes_slot. simpl.
    destruct (Z.eqb_spec (id n) 0) as [Hid | Hid]; simpl.
    + rewrite (insert_fresh s n Hdis Hid).
      destruct (stack_duplicates settings); simpl.
      * destruct (stack_duplicate_shape
                    (set_next_notification_id s
                       (int_add (next_notification_id s) 1))
                    (set_id n (int_add (next_notification_id s) 1)))
          as (n' & s' & -> & Hid' & Hd & Hw & Hh & Hc).
        simpl in Hid', Hd, Hw, Hh, Hc.
        destruct (existsb _ _).
        -- eexists _, _. split; [reflexivity|].
           destruct (printed_queues n' s') as (-> & -> & _).
           destruct (printed_fields n' s') as (-> & ->).
           repeat split; try assumption; lia.
        -- eexists _, _. split; [reflexivity|].
           match goal with |- context [printed ?a ?b] =>
             destruct (printed_queues a b) as (-> & -> & _);
             destruct (printed_fields a b) as (-> & ->)
           end.
           simpl. rewrite length_insert_sorted.
           repeat split; try assumption; lia.
      * eexists _, _. split; [reflexivity|].
        match goal with |- context [printed ?a ?b] =>
          destruct (printed_queues a b) as (-> & -> & _);
          destruct (printed_fields a b) as (-> & ->)
        end.
        simpl. rewrite length_insert_sorted. repeat split; lia.
    + rewrite (insert_with_id s n Hdis Hid).
      destruct (replace_id_shape s n)
        as (n' & s' & -> & Hid' & Hd & Hw & Hh & Hc).
      destruct (existsb _ _).
      * eexists _, _. split; [reflexivity|].
        destruct (printed_queues n' s') as (-> & -> & _).
        destruct (printed_fields n' s') as (-> & ->).
        repeat split; try assumption; lia.
      * eexists _, _. split; [reflexivity|].
        match goal with |- context [printed ?a ?b] =>
          destruct (printed_queues a b) as (-> & -> & _);
          destruct (printed_fields a b) as (-> & ->)
        end.
        simpl. rewrite length_insert_sorted.
        repeat split; try assumption; lia.
Qed.

(** X13.  [queues_notification_insert] never changes the length of
    [displayed] or the history, and lengthens [waiting] by one
    notification exactly when the notification is neither discarded nor
    written into the slot of another one. *)
Theorem insert_grows_waiting_by_one_or_nothing (s : queues)
    (n : notification) :
  exists r s',
    queues_notification_insert n s = Returns r s'
    /\ length (displayed s') = length (displayed s)
    /\ length (waiting s')
       = (length (waiting s)
          + (if discarded n || takes_slot n s then 0 else 1))%nat
    /\ history s' = history s.
Proof.
  destruct (insert_shape s n) as (r & s' & Hrun & _ & _ & Hd & Hw & Hh).
  exists r, s'. auto.
Qed.

(** X14.  While the identifier counter is in range, two fresh
    notifications that are inserted one after the other, neither of them
    discarded, are answered with consecutive identifiers, the first of
    them one more than the counter; an insertion that carries an
    identifier leaves the counter where it is. *)
Theorem fresh_ids_are_consecutive (s : queues) (a b c : notification) :
  counter_in_range s ->
  next_notification_id s + 1 < INT_MAX ->
  discarded a = false -> id a = 0 ->
  discarded b = false -> id b = 0 ->
  id c <> 0 ->
  (exists s1 s2,
     queues_notification_insert a s
     = Returns (next_notification_id s + 1) s1
     /\ queues_notification_insert b s1
        = Returns (next_notification_id s + 2) s2)
  /\ (exists r s',
        queues_notification_insert c s = Returns r s'
        /\ next_notification_id s' = next_notification_id s).
Proof.
  intros Hc Hroom Ha Hida Hb Hidb Hidc. split.
  - destruct (insert_shape s a) as (r1 & s1 & Hrun1 & Hr1 & Hn1 & _).
    rewrite Ha, Hida in Hr1, Hn1. simpl in Hr1, Hn1.
    rewrite (int_add_counter s Hc) in Hr1, Hn1.
    destruct (insert_shape s1 b) as (r2 & s2 & Hrun2 & Hr2 & _).
    rewrite Hb, Hidb in Hr2. simpl in Hr2.
    assert (Hc1 : counter_in_range s1).
    { unfold counter_in_range in *. rewrite Hn1. lia. }
    rewrite (int_add_counter s1 Hc1), Hn1 in Hr2.
    exists s1, s2. subst r1. split; [exact Hrun1|].
    rewrite Hrun2. f_equal. lia.
  - destruct (insert_shape s c) as (r & s' & Hrun & _ & Hn & _).
    exists r, s'. split; [exact Hrun|]. rewrite Hn.
    replace (id c =? 0) with false by lia.
    rewrite orb_true_r. reflexivity.
Qed.

(** ** The timeout scan as a whole *)

Lemma check_timeouts_passes_idle (todo : list notification) :
  forall pre s,
    displayed s = pre ++ todo ->
    Forall (fun n => transient n = false) todo ->
    check_timeouts_passes true (length pre) todo s
    = Returns tt
        (set_clock_reads
           (set_displayed s (pre ++ restamp_from (clock_reads s) todo))
           (clock_reads s + length todo)).
Proof.
  induction todo as [|n todo IH]; intros pre s Hd Hall.
  - simpl. rewrite Nat.add_0_r, <- Hd. destruct s; reflexivity.
  - inversion Hall as [|? ? Hn Hrest]; subst.
    simpl. unfold bind at 1. unfold check_timeouts_visit. rewrite Hn. simpl.
    unfold bind, time_monotonic_now, modify, ret. simpl.
    rewrite Hd, insert_middle.
    replace (S (length pre))
      with (length (pre ++ [set_start n (clock (clock_reads s))]))
      by (rewrite length_app; simpl; lia).
    rewrite IH; [| simpl; rewrite <- app_assoc; reflexivity | exact Hrest].
    simpl. rewrite <- app_assoc, Nat.add_succ_r. reflexivity.
Qed.

(** X15.  While the user is idle and no application is fullscreen, a scan
    over notifications that are not transient closes nothing: it sets the
    visibility-start of each displayed notification to a fresh reading of
    the clock, in queue order, and changes nothing else. *)
Theorem check_timeouts_idle_restamps (s : queues) :
  Forall (fun n => transient n = false) (displayed s) ->
  queues_check_timeouts true false s
  = Returns tt
      (set_clock_reads
         (set_displayed s (restamp_from (clock_reads s) (displayed s)))
         (clock_reads s + length (displayed s))).
Proof.
  intros Hall. rewrite check_timeouts_scans_displayed.
  apply (check_timeouts_passes_idle (displayed s) [] s eq_refl Hall).
Qed.

Lemma check_timeouts_passes_unset (todo : list notification) :
  forall iter s,
    Forall (fun n => start n = 0 \/ timeout n = 0) todo ->
    check_timeouts_passes false iter todo s = Returns tt s.
Proof.
  induction todo as [|n todo IH]; intros iter s Hall; [reflexivity|].
  inversion Hall as [|? ? Hn Hrest]; subst.
  simpl. unfold bind. unfold check_timeouts_visit. simpl.
  replace ((start n =? 0) || (timeout n =? 0)) with true
    by (symmetry; apply orb_true_iff; lia).
  unfold ret. apply IH. exact Hrest.
Qed.

(** X16.  When the idle state in effect is false (the user is active, or
    an application is fullscreen), a scan over notifications each of
    which has no visibility-start yet or no timeout changes nothing: it
    closes none of them and does not even read the clock. *)
Theorem check_timeouts_skips_unset (idle fs : bool) (s : queues) :
  effective_idle idle fs = false ->
  Forall (fun n => start n = 0 \/ timeout n = 0) (displayed s) ->
  queues_check_timeouts idle fs s = Returns tt s.
Proof.
  intros Hidle Hall. rewrite check_timeouts_scans_displayed, Hidle.
  apply check_timeouts_passes_unset. exact Hall.
Qed.

Lemma history_push_reframe (n : notification) (s : queues)
    (d : list notification) (k : nat) :
  queues_history_push n (reframe s d k)
  = match queues_history_push n s with
    | Returns _ s' => Returns tt (reframe s' d k)
    | AssertFailed => AssertFailed
    end.
Proof.
  unfold queues_history_push, reframe, bind, get.
  destruct (history_ignore n); simpl; [reflexivity|].
  destruct (_ && _); [|reflexivity].
  destruct (history s); reflexivity.
Qed.

Lemma archive_each_reframe (reason : Z) (ns : list notification) :
  forall s d k,
    archive_each reason ns (reframe s d k)
    = match archive_each reason ns s with
      | Returns _ s' => Returns tt (reframe s' d k)
      | AssertFailed => AssertFailed
      end.
Proof.
  induction ns as [|n ns IH]; intros s d k; [reflexivity|].
  simpl. unfold bind.
  assert (Hsig : forall st,
            (if negb (redisplayed n)
             then extern (signal_notification_closed n reason)
             else ret tt) (reframe st d k)
            = match (if negb (redisplayed n)
                     then extern (signal_notification_closed n reason)
                     else ret tt) st with
              | Returns _ st' => Returns tt (reframe st' d k)
              | AssertFailed => AssertFailed
              end).
  { intros st. destruct (redisplayed n); reflexivity. }
  rewrite Hsig.
  destruct ((if negb (redisplayed n)
             then extern (signal_notification_closed n reason)
             else ret tt) s) as [[] s1|]; [|reflexivity].
  rewrite history_push_reframe.
  destruct (queues_history_push n s1) as [[] s2|]; [|reflexivity].
  apply IH.
Qed.

Lemma reframe_reframe (s : queues) (d d' : list notification) (k k' : nat) :
  reframe (reframe s d k) d' k' = reframe s d' k'.
Proof. reflexivity. Qed.

(** Closing the notification at the cursor, seen as what is done with it
    once it is unlinked. *)
Lemma close_at_cursor (s : queues) (reason : Z) (n : notification)
    (pre post : list notification) :
  displayed s = pre ++ n :: post ->
  id_free (id n) pre ->
  id_free (id n) (waiting s) ->
  exists x,
    archive_each reason [n] s = Returns tt x
    /\ waiting x = waiting s
    /\ queues_notification_close_id (id n) reason s
       = Returns tt (reframe x (pre ++ post) (clock_reads s)).
Proof.
  intros Hd Hpre Hw.
  rewrite (close_id_in_displayed s reason n pre post Hd Hpre Hw).
  simpl. unfold bind.
  set (s0 := if redisplayed n then s
             else set_calls s
                    (calls s ++ [signal_notification_closed n reason])).
  assert (Hsig : (if negb (redisplayed n)
                  then extern (signal_notification_closed n reason)
                  else ret tt) s = Returns tt s0).
  { unfold s0. destruct (redisplayed n); reflexivity. }
  rewrite Hsig.
  assert (Hun : unlinked_displayed n reason (pre ++ post) s
                = reframe s0 (pre ++ post) (clock_reads s)).
  { unfold unlinked_displayed, reframe, s0.
    destruct (redisplayed n); destruct s; reflexivity. }
  rewrite Hun, history_push_reframe.
  destruct (history_push_returns s0 n) as (x & -> & Hwx & _).
  exists x. split; [reflexivity|]. split; [|reflexivity].
  rewrite Hwx. unfold s0. destruct (redisplayed n); reflexivity.
Qed.

Lemma reframe_same (s : queues) :
  reframe s (displayed s) (clock_reads s) = s.
Proof. destruct s; reflexivity. Qed.

Lemma check_timeouts_passes_expire (todo : list notification) :
  forall pre s,
    displayed s = pre ++ todo ->
    Forall (fun n => id_free (id n) pre /\ id_free (id n) (waiting s)) todo ->
    NoDup (map id todo) ->
    check_timeouts_passes false (length pre) todo s
    = let '(kept, closed, k') := expire_scan (clock_reads s) todo in
      archive_each REASON_TIME closed (reframe s (pre ++ kept) k').
Proof.
  induction todo as [|n todo IH]; intros pre s Hd Hfree Hnd.
  - simpl. rewrite <- Hd, reframe_same. reflexivity.
  - inversion Hfree as [|? ? [Hnpre Hnw] Hrest]; subst.
    inversion Hnd as [|? ? Hnotin Hnd']; subst.
    assert (Hfree' : forall st k,
              waiting st = waiting s ->
              Forall (fun m => id_free (id m) (pre ++ [set_start n k])
                               /\ id_free (id m) (waiting st)) todo).
    { intros st k Hst. rewrite Hst.
      apply List.Forall_forall. intros m Hm.
      assert (Hm' := proj1 (List.Forall_forall _ _) Hrest m Hm).
      destruct Hm' as [Hp Hw]. split; [|exact Hw].
      apply id_free_app. split; [exact Hp|].
      apply id_free_cons. split; [|constructor]. simpl.
      intros Heq. apply Hnotin. apply list_elem_of_In. rewrite Heq.
      apply in_map. exact Hm. }
    assert (Hfree0 : forall st,
              waiting st = waiting s ->
              Forall (fun m => id_free (id m) pre
                               /\ id_free (id m) (waiting st)) todo).
    { intros st Hst. rewrite Hst. exact Hrest. }
    assert (Hsame : set_start n (start n) = n) by (destruct n; reflexivity).
    simpl. unfold bind at 1. unfold check_timeouts_visit. simpl.
    destruct ((start n =? 0) || (timeout n =? 0)).
    + unfold ret at 1.
      replace (S (length pre)) with (length (pre ++ [set_start n (start n)]))
        by (rewrite length_app; simpl; lia).
      rewrite IH; [| rewrite Hsame, <- app_assoc; exact Hd
                   | apply Hfree'; reflexivity | exact Hnd'].
      destruct (expire_scan (clock_reads s) todo) as [[kept closed] k'].
      rewrite Hsame, <- app_assoc. reflexivity.
    + unfold bind at 1. unfold time_monotonic_now.
      destruct (gint64_sub (clock (clock_reads s)) (start n) >? timeout n).
      * unfold bind at 1. unfold queues_notification_close.
        destruct (close_at_cursor (set_clock_reads s (S (clock_reads s)))
                    REASON_TIME n pre todo Hd Hnpre Hnw)
          as (x & Harch & Hwx & ->).
        unfold ret at 1.
        rewrite IH; [| reflexivity | apply Hfree0; exact Hwx | exact Hnd'].
        simpl clock_reads.
        destruct (expire_scan (S (clock_reads s)) todo)
          as [[kept closed] k'].
        rewrite reframe_reframe.
        change (archive_each REASON_TIME (n :: closed)
                  (reframe s (pre ++ kept) k'))
          with (archive_each REASON_TIME ([n] ++ closed)
                  (reframe (set_clock_reads s (S (clock_reads s)))
                     (pre ++ kept) k')).
        rewrite archive_each_app, (archive_each_reframe REASON_TIME [n]), Harch.
        reflexivity.
      * unfold ret at 1.
        replace (S (length pre))
          with (length (pre ++ [set_start n (start n)]))
          by (rewrite length_app; simpl; lia).
        rewrite IH; [| rewrite Hsame, <- app_assoc; exact Hd
                     | apply Hfree'; reflexivity | exact Hnd'].
        simpl clock_reads.
        destruct (expire_scan (S (clock_reads s)) todo)
          as [[kept closed] k'].
        rewrite Hsame, <- app_assoc. reflexivity.
Qed.

(** X17.  With the idle state in effect false and identifiers unique
    among the notifications of [displayed] and [waiting], a timeout scan
    closes, with [REASON_TIME], exactly the displayed notifications that
    have a visibility-start and a timeout and whose timeout is exceeded
    by the clock reading taken for them minus the visibility-start; it
    closes them in queue order and leaves the others in [displayed], in
    their order and as they were. *)
Theorem check_timeouts_closes_the_expired (idle fs : bool) (s : queues) :
  effective_idle idle fs = false ->
  NoDup (map id (displayed s)) ->
  Forall (fun n => id_free (id n) (waiting s)) (displayed s) ->
  queues_check_timeouts idle fs s
  = let '(kept, closed, k') := expire_scan (clock_reads s) (displayed s) in
    archive_each REASON_TIME closed (reframe s kept k').
Proof.
  intros Hidle Hnd Hfree. rewrite check_timeouts_scans_displayed, Hidle.
  apply (check_timeouts_passes_expire (displayed s) [] s eq_refl);
    [|exact Hnd].
  apply List.Forall_forall. intros m Hm.
  split; [constructor | exact (proj1 (List.Forall_forall _ _) Hfree m Hm)].
Qed.

(** X18.  The only calls [queues_update] makes run scripts, each for a
    notification that carries a script and has not come back from the
    history: an update frees nothing, reports no closure, and does not
    run the script of a recalled notification again. *)
Theorem update_runs_scripts_of_first_shown_only (fs : bool) (s : queues) :
  exists s' shown,
    queues_update fs s = Returns tt s'
    /\ calls s' = calls s ++ map notification_run_script shown
    /\ Forall first_shown shown.
Proof.
  set (P := fun st : queues =>
              exists shown,
                calls st = calls s ++ map notification_run_script shown
                /\ Forall first_shown shown).
  assert (P0 : P s).
  { exists []. simpl. rewrite app_nil_r. split; [reflexivity | constructor]. }
  assert (Hgoal : exists s', queues_update fs s = Returns tt s' /\ P s').
  { rewrite queues_update_unfold. destruct (pause_displayed s).
    - rewrite update_paused_loop_spec by reflexivity.
      eexists. split; [reflexivity|]. exact P0.
    - assert (Hpush : exists s1,
                 (if fs then update_pushback_loop (length (displayed s)) O s
                  else Returns tt s) = Returns tt s1 /\ P s1).
      { destruct fs; [|exists s; split; [reflexivity | exact P0]].
        apply (update_pushback_loop_inv P); [|exact P0].
        intros st iter n HP _ _. exact HP. }
      destruct Hpush as (s1 & -> & H1).
      apply (update_promote_loop_inv fs P); [|exact H1].
      intros st iter n (shown & Hc & Hall) _ _ _.
      unfold promote_step. simpl.
      destruct (redisplayed n) eqn:Hr; simpl; [exists shown; auto|].
      destruct (script n) as [sc|] eqn:Hs; simpl; [|exists shown; auto].
      exists (shown ++ [set_start n (clock (clock_reads st))]).
      rewrite Hc, map_app, <- app_assoc. split; [reflexivity|].
      apply Forall_app. split; [exact Hall|].
      constructor; [|constructor]. split; simpl; [exact Hr|].
      rewrite Hs. discriminate. }
  destruct Hgoal as (s' & Hrun & shown & Hc & Hall).
  exists s', shown. auto.
Qed.

End Queues.

(** * Closed instances: witnesses and counterexamples *)

(** C1, counterexample.  With sticky history disabled the recalled
    notification keeps its timeout of five seconds, where the claim has it
    reset to 0. *)
Lemma history_pop_claim_fails :
  ~ history_pop_as_claimed plain_settings history_sample.
Proof.
  intros H.
  destruct (H [] closed_sample eq_refl) as (n' & Hw & _ & _ & Ht).
  vm_compute in Hw. injection Hw as <-. vm_compute in Ht. discriminate.
Qed.

(** C1, witness: the same history, popped with sticky history disabled. *)
Lemma history_pop_recalls_witness :
  exists n',
    queues_history_pop plain_settings history_sample
      = Returns tt (set_waiting (set_history history_sample [])
                      (n' :: waiting history_sample))
    /\ n' = set_timeout (set_start (set_redisplayed closed_sample true) 0)
              (if sticky_history plain_settings then 0
               else timeout closed_sample)
    /\ redisplayed n' = true
    /\ start n' = 0
    /\ timeout n' = (if sticky_history plain_settings then 0
                     else timeout closed_sample).
Proof.
  apply (history_pop_recalls plain_settings history_sample [] closed_sample).
  reflexivity.
Defined.

(** C5, witness: the scenario of the spec.  With [history_length = 1] and
    a first notification in the history, pushing a second one frees the
    first and leaves the second alone in the history. *)
Lemma history_push_bounded_witness :
  queues_history_push (mk_settings false false false false 1 (-1))
      (note 3 1 "b") history_sample
  = Returns tt (set_history
                  (set_calls history_sample [notification_free closed_sample])
                  [note 3 1 "b"]).
Proof.
  refine (proj1 (proj2 (proj2
            (history_push_bounded (mk_settings false false false false 1 (-1))
               history_sample [] (note 3 1 "b") _))) _ closed_sample [] _ _);
    vm_compute; congruence.
Defined.

(** C6, counterexample.  A timeout of [G_MAXINT64] read at time 0: the
    remaining time equals the value that [sleep] starts from, and the
    function returns -1, not [T - t]. *)
Lemma wake_claim_fails : ~ wake_as_claimed plain_settings G_MAXINT64 0.
Proof.
  intros H. destruct H as [H _]; [reflexivity | reflexivity |].
  specialize (H eq_refl). vm_compute in H. discriminate.
Qed.

(** C6, witness: a timeout of five seconds read after two seconds leaves
    three seconds. *)
Lemma next_datachange_single_witness :
  queues_get_next_datachange plain_settings 2000000
    (set_displayed queues_init [closed_sample]) = 3000000.
Proof.
  refine (proj1 (next_datachange_single plain_settings
                   (set_displayed queues_init [closed_sample])
                   closed_sample 2000000 _ _ _ _ _ _) _ _);
    vm_compute; intuition congruence.
Defined.

(** C3, counterexample.  A replacement of a waiting notification swaps the
    slot and frees the old notification, and no script is run. *)
Lemma replace_claim_fails :
  ~ replace_as_claimed (fun _ => 0) (note 5 2 "new") waiting_sample.
Proof.
  intros H. specialize (H _ _ eq_refl). vm_compute in H.
  destruct H as [H | []]. discriminate.
Qed.

(** C4, counterexample.  Two equal notifications inserted into the empty
    queues: the one entry left has duplicate counter 1, not 2. *)
Lemma stacking_claim_fails :
  ~ stacking_as_claimed stack_settings by_urgency same_text (fun _ => 0)
      (note 0 1 "a") (note 0 1 "a").
Proof.
  intros (e & He & Hc). vm_compute in He. injection He as <-.
  vm_compute in Hc. discriminate.
Qed.

(** C4, witness: a duplicate of the waiting notification with identifier 2
    and duplicate counter 0 is given identifier 3, takes the slot and
    leaves with duplicate counter 1. *)
Lemma stacking_counts_witness :
  queues_notification_insert stack_settings by_urgency same_text
    (fun _ => 0) (note 0 1 "a") first_inserted_sample
  = Returns 3
      (set_calls
         (set_waiting (set_next_notification_id first_inserted_sample 3)
            [set_dup_count (note 3 1 "a") 1])
         [signal_notification_closed (set_dup_count (note 2 1 "a") 1) 1;
          notification_free (set_dup_count (note 2 1 "a") 1)]).
Proof.
  refine (proj2 (stacking_counts stack_settings by_urgency same_text
                   (fun _ => 0) first_inserted_sample (note 0 1 "a")
                   (note 2 1 "a") [] [] _ _ _ _ _ _ _) _ _);
    try reflexivity; try (vm_compute; intuition congruence); constructor.
Defined.

(** C10, counterexample.  A waiting notification carries identifier 2,
    which a client supplied, and the counter stands at 1.  A fresh
    duplicate is given identifier 2 as well and takes the slot: the
    identifier of the freed notification is the identifier of the slot. *)
Lemma absorbed_id_claim_fails :
  ~ absorbed_id_as_claimed stack_settings by_urgency same_text
      (fun _ => 0) supplied_id_sample (note 0 1 "a") (note 2 1 "a").
Proof.
  intros H. destruct (H _ _ eq_refl) as [Hfree _].
  - vm_compute. auto.
  - vm_compute in Hfree. inversion Hfree as [|? ? Hne _]. apply Hne.
    reflexivity.
Qed.

(** [by_urgency] orders notifications consistently. *)
Lemma by_urgency_total : cmp_total by_urgency.
Proof.
  intros a b. unfold by_urgency.
  destruct (Z.ltb_spec (urgency b) (urgency a));
    destruct (Z.ltb_spec (urgency a) (urgency b)); lia.
Qed.

Lemma by_urgency_transitive : cmp_transitive by_urgency.
Proof.
  intros a b c. unfold by_urgency.
  destruct (Z.ltb_spec (urgency b) (urgency a));
    destruct (Z.ltb_spec (urgency a) (urgency b));
    destruct (Z.ltb_spec (urgency c) (urgency b));
    destruct (Z.ltb_spec (urgency b) (urgency c));
    destruct (Z.ltb_spec (urgency c) (urgency a));
    destruct (Z.ltb_spec (urgency a) (urgency c)); lia.
Qed.

(** C2, counterexample.  Both samples have sorted queues.  In the first,
    [displayed] is full: the recalled notification is pushed onto the head
    of [waiting], before a more urgent one, and the update moves nothing.
    In the second, a notification of urgency 3 replaces, by identifier, the
    last and least urgent waiting one, behind one of urgency 2. *)
Lemma sorted_claim_fails :
  (queues_sorted by_urgency recall_sample
   /\ ~ sorted_after_as_claimed by_urgency
          (queues_history_pop plain_settings ;;
           queues_update by_urgency (fun _ => 0) false)
          recall_sample)
  /\ (queues_sorted by_urgency two_waiting_sample
      /\ ~ sorted_after_as_claimed by_urgency
             (queues_notification_insert plain_settings by_urgency same_text
                (fun _ => 0) (note 6 3 "z"))
             two_waiting_sample).
Proof.
  repeat split; try reflexivity; intros [Hw _]; vm_compute in Hw;
    discriminate.
Qed.

(** C2, witness: an update of two sorted waiting notifications, ordered
    by urgency. *)
Lemma sorted_queues_stay_sorted_witness :
  exists s',
    queues_update by_urgency (fun _ => 0) false two_waiting_sample
    = Returns tt s'
    /\ queues_sorted by_urgency s'.
Proof.
  apply (proj1 (sorted_queues_stay_sorted plain_settings by_urgency same_text
                  (fun _ => 0) two_waiting_sample (note 0 1 "a") false
                  by_urgency_total by_urgency_transitive
                  (conj eq_refl eq_refl))).
Defined.

(** C7, witness: the first insertion into the empty queues is answered
    with an identifier other than 0. *)
Lemma insert_returns_zero_iff_discarded_witness :
  exists r s',
    queues_notification_insert plain_settings by_urgency same_text
      (fun _ => 0) (note 0 1 "a") queues_init = Returns r s'
    /\ r <> 0.
Proof.
  destruct (insert_returns_zero_iff_discarded plain_settings by_urgency
              same_text (fun _ => 0) queues_init (note 0 1 "a"))
    as (r & s' & Hrun & Hzero & _).
  - vm_compute. split; [discriminate | reflexivity].
  - exists r, s'. split; [exact Hrun|]. intros Hr.
    apply Hzero in Hr. vm_compute in Hr. discriminate.
Defined.


(** The scenario of the spec from end to end: a notification with a
    timeout of five seconds is inserted and given identifier 2, an update
    displays it, and a scan just after the five seconds closes it with
    [REASON_TIME] (here 1) and appends it to the history. *)
Example timeout_scenario :
  let ops :=
    (queues_notification_insert plain_settings by_urgency same_text
       sample_clock (set_timeout (note 0 1 "a") 5000000) ;;
     queues_update by_urgency sample_clock false ;;
     queues_check_timeouts plain_settings sample_clock 1 false false) in
  ops queues_init
  = Returns tt
      (mk_queues [] [] [shown_sample] 0 2 false 2
         [signal_notification_closed shown_sample 1]).
Proof. vm_compute. reflexivity. Qed.

(** C9, counterexample.  The displayed notification has mode [FS_DELAY].
    The paused update moves it to [waiting]; after the pause, an update
    with fullscreen active leaves it there. *)
Lemma pause_resume_claim_fails :
  ~ pause_resume_as_claimed by_urgency (fun _ => 0) true true paused_sample.
Proof.
  intros H.
  destruct (H _ (or_introl eq_refl)) as (p & _ & Hin).
  vm_compute in Hin. exact Hin.
Qed.

(** C10, witness: the waiting notification has identifier 2 and the
    counter stands at 2; a fresh duplicate is given identifier 3 and takes
    the slot, and closing identifier 2 afterwards changes nothing. *)
Lemma absorbed_takes_new_id_witness :
  exists s',
    queues_notification_insert stack_settings by_urgency same_text
      (fun _ => 0) (note 0 1 "a") first_inserted_sample = Returns 3 s'
    /\ forall reason,
         queues_notification_close_id stack_settings 2 reason s'
         = Returns tt s'.
Proof.
  destruct (proj2 (absorbed_takes_new_id stack_settings by_urgency same_text
                     (fun _ => 0) first_inserted_sample (note 0 1 "a")
                     (note 2 1 "a") [] [] eq_refl eq_refl eq_refl
                     (List.Forall_nil _) eq_refl)
              (List.Forall_nil _) eq_refl)
    as (n' & s' & Hrun & _ & _ & _ & _ & _ & Hclose).
  exists s'. split; [exact Hrun|].
  apply Hclose; try (vm_compute; discriminate); constructor.
Defined.

(** C3, witness.  A notification with identifier 5 replaces the displayed
    one: it takes over the duplicate counter 3, is stamped with the clock,
    the script is run for it and the old notification is freed. *)
Lemma replace_id_swaps_slot_witness :
  let new' := set_dup_count (set_start (note 5 2 "new") 1000) 3 in
  queues_notification_insert plain_settings by_urgency same_text sample_clock
    (note 5 2 "new") replaced_sample
  = Returns 5
      (set_calls
         (set_clock_reads (set_displayed replaced_sample [new']) 1)
         [notification_run_script new';
          notification_free (set_dup_count (note 5 1 "old") 3)]).
Proof.
  refine (proj2 (proj1 (replace_id_swaps_slot plain_settings by_urgency
                          same_text sample_clock replaced_sample
                          (note 5 2 "new"))
                   [] (set_dup_count (note 5 1 "old") 3) [] eq_refl
                   (List.Forall_nil _) eq_refl) eq_refl _).
  vm_compute. discriminate.
Defined.

(** C9, witness.  Two notifications are displayed when the engine is
    paused; an update, the end of the pause and an update with fullscreen
    inactive bring both back. *)
Lemma update_pause_semantics_witness :
  exists s3,
    (queues_update by_urgency sample_clock false ;;
     queues_pause_off ;;
     queues_update by_urgency sample_clock false) paused_pair_sample
    = Returns tt s3
    /\ waiting s3 = []
    /\ forall n, In n (displayed paused_pair_sample) ->
                 exists p, stamped n p /\ In p (displayed s3).
Proof.
  refine (proj2 (proj2 (proj2
            (update_pause_semantics by_urgency sample_clock
               paused_pair_sample false))) eq_refl _).
  vm_compute. discriminate.
Defined.

(** * Closed instances of the further properties *)

(** X3, witness: closing identifier 2, the displayed notification of the
    sample, empties [displayed]. *)
Lemma close_id_archives_witness :
  exists s',
    queues_notification_close_id plain_settings 2 7 recall_sample
    = Returns tt s'
    /\ displayed s' = [] /\ waiting s' = waiting recall_sample.
Proof.
  destruct (close_id_archives plain_settings recall_sample 7 (note 2 1 "d")
              [] [] true)
    as (s' & freed & Hrun & Hd & Hw & _).
  - constructor.
  - split; [reflexivity|]. constructor; [vm_compute; discriminate|constructor].
  - exists s'. auto.
Defined.

(** X4, witness: with [history_length = 1] and one notification in the
    history, closing the displayed notification leaves one. *)
Lemma close_id_keeps_history_bound_witness :
  match queues_notification_close_id
          (mk_settings false false false false 1 (-1)) 2 7 recall_sample with
  | Returns _ s' => Z.of_nat (length (history s')) <= 1
  | AssertFailed => True
  end.
Proof.
  apply (close_id_keeps_history_bound
           (mk_settings false false false false 1 (-1)) recall_sample 2 7);
    vm_compute; congruence.
Defined.

(** X7, witness: the sample displays identifier 2 and holds identifier 3
    in [waiting]. *)
Lemma history_push_all_archives_witness :
  exists s',
    queues_history_push_all plain_settings 2 recall_sample = Returns tt s'
    /\ displayed s' = [] /\ waiting s' = [].
Proof.
  destruct (history_push_all_archives plain_settings 2 recall_sample)
    as (s' & Hrun & _ & Hd & Hw).
  - constructor; [|constructor].
    constructor; [vm_compute; discriminate|constructor].
  - exists s'. auto.
Defined.


(** X11, witness: the sample has a limit of 1 and displays one
    notification. *)
Lemma update_respects_limit_witness :
  exists s',
    queues_update by_urgency sample_clock false recall_sample = Returns tt s'
    /\ displayed_limit s' = 1
    /\ Z.of_nat (length (displayed s')) <= 1.
Proof.
  apply (update_respects_limit by_urgency sample_clock false recall_sample).
  reflexivity.
Defined.

(** X14, witness: the first two insertions into the empty queues are
    answered with 2 and 3. *)
Lemma fresh_ids_are_consecutive_witness :
  exists s1 s2,
    queues_notification_insert plain_settings by_urgency same_text
      sample_clock (note 0 1 "a") queues_init = Returns 2 s1
    /\ queues_notification_insert plain_settings by_urgency same_text
         sample_clock (note 0 2 "b") s1 = Returns 3 s2.
Proof.
  apply (proj1 (fresh_ids_are_consecutive plain_settings by_urgency same_text
                  sample_clock queues_init (note 0 1 "a") (note 0 2 "b")
                  (note 5 1 "c")
                  (conj (Z.le_refl 1) eq_refl) eq_refl
                  eq_refl eq_refl eq_refl eq_refl
                  (fun H : 5 = 0 => Z.neq_sym _ _ (Z.lt_neq 0 5 eq_refl) H))).
Defined.

(** X15, witness: the displayed notification of the sample is restamped
    with the second reading of the clock. *)
Lemma check_timeouts_idle_restamps_witness :
  queues_check_timeouts plain_settings sample_clock 1 true false
    displayed_sample
  = Returns tt
      (set_clock_reads
         (set_displayed displayed_sample [set_start shown_sample 5001001]) 2).
Proof.
  apply (check_timeouts_idle_restamps plain_settings sample_clock 1
           displayed_sample).
  constructor; [reflexivity | constructor].
Defined.

(** X16, witness: a displayed notification without visibility-start and
    without timeout, scanned while the user is active. *)
Lemma check_timeouts_skips_unset_witness :
  queues_check_timeouts plain_settings sample_clock 1 false false
    replaced_sample
  = Returns tt replaced_sample.
Proof.
  apply (check_timeouts_skips_unset plain_settings sample_clock 1 false false
           replaced_sample eq_refl).
  constructor; [left; reflexivity | constructor].
Defined.

(** X17, witness: the displayed notification of the sample has run out
    at the second reading of the clock and is closed. *)
Lemma check_timeouts_closes_the_expired_witness :
  queues_check_timeouts plain_settings sample_clock 1 false false
    displayed_sample
  = archive_each plain_settings 1 [shown_sample]
      (reframe displayed_sample [] 2).
Proof.
  apply (check_timeouts_closes_the_expired plain_settings sample_clock 1
           false false displayed_sample eq_refl).
  - constructor; [inversion 1 | constructor].
  - constructor; constructor.
Defined.
